(** * SBMS0 telemetry frames: the field codec and the frame interpreter

    A shallow embedding of [etc/dbus-serialbattery/sbms0.py]: the base-91
    field decoder [dcmp] and the method [Sbms0.process_status_data], with
    the statements of the specification proved or refuted on them.

    Conventions of the embedding.
    - A Python [str] is a [string]; a character is an [ascii], so frames
      range over the code points 0..255.
    - A Python [int] is a [Z].
    - A Python [float] is the rational it stands for, a [Q].  Every float
      of this program is the quotient of an integer by 10 or 1000 (or a
      sum, a difference, a maximum of such), and it is only compared
      with integer constants, so the comparisons agree with those on the
      rationals; [round(x, 3)] is rounding to the nearest multiple of
      1/1000.
    - An exception is a value [Raise e]; a method is a function from the
      object before the call to an outcome and the object after it.
    - The calls to [utils.logger] write to a log outside the object and
      are left out. *)

From Stdlib Require Import ZArith QArith Qround Qminmax String Ascii List Bool Lia.
From Stdlib Require Import DecimalString DecimalZ DecimalPos DecimalN.
Import ListNotations.

Local Open Scope Z_scope.

(** ** The Python primitives the program uses *)

Module Py.

Inductive exn : Type := IndexError | ValueError | KeyError.

Inductive result (A : Type) : Type :=
| Ok (a : A)
| Raise (e : exn).

Arguments Ok {A} a.
Arguments Raise {A} e.

Definition bind {A B : Type} (r : result A) (k : A -> result B) : result B :=
  match r with
  | Ok a => k a
  | Raise e => Raise e
  end.

(** [ord(c)], [chr(n)] and [len(s)]. *)
Definition ord (c : ascii) : Z := Z.of_N (N_of_ascii c).

Definition chr (n : Z) : ascii := ascii_of_N (Z.to_N n).

Definition len (s : string) : Z := Z.of_nat (String.length s).

(** An index [i] into a sequence of [n] items: a negative index counts
    from the end, and an index out of range raises [IndexError]. *)
Definition index (n : nat) (i : Z) : result nat :=
  let j := if i <? 0 then i + Z.of_nat n else i in
  if (0 <=? j) && (j <? Z.of_nat n) then Ok (Z.to_nat j)
  else Raise IndexError.

(** [s[i]] on a string. *)
Definition getitem (s : string) (i : Z) : result ascii :=
  match index (String.length s) i with
  | Ok j => match String.get j s with
            | Some c => Ok c
            | None => Raise IndexError
            end
  | Raise e => Raise e
  end.

(** [range(n)]: empty when [n <= 0]. *)
Definition range (n : Z) : list Z := map Z.of_nat (seq 0 (Z.to_nat n)).

(** [enumerate(xs)]. *)
Definition enumerate {A : Type} (xs : list A) : list (Z * A) :=
  combine (range (Z.of_nat (length xs))) xs.

(** [pow(b, e)] on integers, for a non-negative exponent. *)
Definition pow (b e : Z) : Z := b ^ e.

(** [for x in xs: acc = body(x, acc)], stopping at the first exception. *)
Fixpoint for_in {A S : Type} (xs : list A) (acc : S)
         (body : A -> S -> result S) : result S :=
  match xs with
  | [] => Ok acc
  | x :: rest => bind (body x acc) (fun acc' => for_in rest acc' body)
  end.

(** [[f(x) for x in xs]], stopping at the first exception. *)
Fixpoint list_comp {A B : Type} (xs : list A) (f : A -> result B)
  : result (list B) :=
  match xs with
  | [] => Ok []
  | x :: rest =>
      bind (f x) (fun y => bind (list_comp rest f) (fun ys => Ok (y :: ys)))
  end.

(** [d[k]] on a dict with string keys, kept as the list of its items in
    insertion order; the last item of a key is its value. *)
Fixpoint getkey {V : Type} (d : list (string * V)) (k : string) : result V :=
  match d with
  | [] => Raise KeyError
  | (k', v) :: rest =>
      match getkey rest k with
      | Ok v' => Ok v'
      | Raise _ => if String.eqb k' k then Ok v else Raise KeyError
      end
  end.

(** Truth value of an attribute that holds [None] or an integer. *)
Definition truthy (x : option Z) : bool :=
  match x with
  | None => false
  | Some n => negb (n =? 0)
  end.

(** [str(n)] on an integer: its decimal rendering. *)
Definition str (n : Z) : string := NilZero.string_of_int (Z.to_int n).

(** [str(x)] on an attribute that holds [None] or an integer. *)
Definition str_opt (x : option Z) : string :=
  match x with
  | None => "None"%string
  | Some n => str n
  end.

(** Comparisons of floats. *)
Definition Qltb (x y : Q) : bool := negb (Qle_bool y x).

(** [sum(xs)] on floats: from 0, left to right. *)
Definition sum (xs : list Q) : Q := fold_left Qplus xs 0%Q.

(** [round(x, ndigits)]: to the nearest multiple of [10^-ndigits], a tie
    to the even one. *)
Definition round_half_even (x : Q) : Z :=
  let f := Qfloor x in
  match Qcompare (x - inject_Z f) (1 # 2) with
  | Lt => f
  | Gt => f + 1
  | Eq => if Z.even f then f else f + 1
  end.

Definition round (x : Q) (ndigits : Z) : Q :=
  (inject_Z (round_half_even (x * inject_Z (10 ^ ndigits)))
   / inject_Z (10 ^ ndigits))%Q.

(** *** [float(s)] on a string

    The program calls [float] on one character followed by [str] of an
    integer.  The grammar below is the part of Python's that such a
    string can meet: white space around, a sign, digits with a decimal
    point.  An exponent, an underscore between digits, [inf] and [nan]
    need a letter or an underscore after the first character, which
    [str] of an integer never supplies; a string outside the grammar
    raises [ValueError]. *)

(** The white space that [float] strips, among the code points 0..255:
    the ASCII blanks 9-13 and 32, and the Latin-1 blanks 133 and 160. *)
Definition isspace (c : ascii) : bool :=
  existsb (Z.eqb (ord c)) [9; 10; 11; 12; 13; 32; 133; 160].

Fixpoint lstrip (s : string) : string :=
  match s with
  | EmptyString => EmptyString
  | String c r => if isspace c then lstrip r else s
  end.

Fixpoint rstrip (s : string) : string :=
  match s with
  | EmptyString => EmptyString
  | String c r =>
      match rstrip r with
      | EmptyString => if isspace c then EmptyString else String c EmptyString
      | String c' r' => String c (String c' r')
      end
  end.

(** The text before the first ["."], and the text after it if there is
    one. *)
Fixpoint split_point (s : string) : string * option string :=
  match s with
  | EmptyString => (EmptyString, None)
  | String c r =>
      if Ascii.eqb c "." then (EmptyString, Some r)
      else let (a, b) := split_point r in (String c a, b)
  end.

Definition is_empty (s : string) : bool :=
  match s with
  | EmptyString => true
  | String _ _ => false
  end.

(** The value of a run of decimal digits (0 for the empty run); [None]
    when a character is not a digit. *)
Definition digitpart (s : string) : option Z :=
  option_map Z.of_uint (NilEmpty.uint_of_string s).

(** [digits], [digits.], [digits.digits] and [.digits]. *)
Definition number (s : string) : option Q :=
  match split_point s with
  | (ip, None) =>
      if is_empty ip then None else option_map inject_Z (digitpart ip)
  | (ip, Some fp) =>
      if is_empty ip && is_empty fp then None
      else match digitpart ip, digitpart fp with
           | Some a, Some b =>
               Some (inject_Z a + inject_Z b / inject_Z (10 ^ len fp))%Q
           | _, _ => None
           end
  end.

Definition float (s : string) : result Q :=
  let t := rstrip (lstrip s) in
  let '(negative, body) :=
    match t with
    | String c r =>
        if Ascii.eqb c "-" then (true, r)
        else if Ascii.eqb c "+" then (false, r)
        else (false, t)
    | EmptyString => (false, t)
    end in
  match number body with
  | Some q => Ok (if negative then - q else q)%Q
  | None => Raise ValueError
  end.

End Py.

Import Py.

Declare Scope py_scope.
Notation "x <- c ;; k" := (Py.bind c (fun x => k))
  (at level 61, c at next level, right associativity) : py_scope.
Local Open Scope py_scope.

(** ** The field codec *)

(** [dcmp(comp, pos, size)], lines 54-64. *)
Definition dcmp (comp : string) (pos size : Z) : result Z :=
  for_in (range size) 0 (fun i decomp =>
    c <- getitem comp ((pos + size - 1) - i) ;;
    Ok (decomp + (ord c - 35) * pow 91 i)).

(** *** The specification's reading of a field *)

(** The character code at index [k] of a frame (0 outside the frame). *)
Definition code_at (frame : string) (k : Z) : Z :=
  match String.get (Z.to_nat k) frame with
  | Some c => ord c
  | None => 0
  end.

(** The digit value of a character: its code minus 35. *)
Definition digit (frame : string) (k : Z) : Z := code_at frame k - 35.

(** [sigma n f] is the sum of [f i] for [i] in [0, n). *)
Fixpoint sigma (n : nat) (f : Z -> Z) : Z :=
  match n with
  | O => 0
  | S k => sigma k f + f (Z.of_nat k)
  end.

(** The decoded value of section 3: the digit at the highest index of the
    slice weighs [91^0]. *)
Definition field_value (frame : string) (pos size : Z) : Z :=
  sigma (Z.to_nat size) (fun i => digit frame (pos + size - 1 - i) * 91 ^ i).

(** *** An encoder *)

(** Modelled from the spec: the encoder, which the repository does not
    have.  Section 8 takes it as the inverse of the decoder: each digit
    [d] becomes the character of code [d + 35], the most significant
    digit first. *)
Definition encode_digits (ds : list Z) : string :=
  fold_right (fun d s => String (chr (d + 35)) s) EmptyString ds.

(** The value of a digit sequence, most significant digit first. *)
Definition digits_value (ds : list Z) : Z :=
  fold_left (fun acc d => acc * 91 + d) ds 0.

(** The [n] base-91 digits of [v], most significant first. *)
Fixpoint to_digits (n : nat) (v : Z) : list Z :=
  match n with
  | O => []
  | S k => to_digits k (v / 91) ++ [v mod 91]
  end.

(** Modelled from the spec: the encoder of a value at a given width. *)
Definition encode (n : nat) (v : Z) : string := encode_digits (to_digits n v).

(** ** Constants, lines 14-43 and 74 *)

Definition BATTERY_CELL_BALANCE_ALARM : Z := 100.  (* mV *)
Definition BATTERY_CELL_BALANCE_WARN : Z := 50.    (* mV *)

Definition BATTERY_SOC_ALARM : Z := 10.            (* % *)
Definition BATTERY_SOC_WARN : Z := 20.             (* % *)

Definition BATTERY_TEMP_HIGH_ALARM : Z := 40.      (* degrees C *)
Definition BATTERY_TEMP_LOW_ALARM : Z := 2.        (* degrees C *)

Definition SBMS_STATUS_CODES : list string :=
  [ "OV"; "OVLK"; "UV"; "UVLK"; "IOT"; "COC"; "DOC"; "DSC"; "CELF"; "OPEN";
    "LVC"; "ECCF"; "CFET"; "EOC"; "DFET" ]%string.

Definition SBMS_CELL_COUNT_MAX : Z := 8.

Definition LENGTH_FIXED : Z := 59.

(** ** The battery object

    [battery.py], with the classes [Cell], [Protection] and [Battery], is
    not among the sources at hand; what [process_status_data] needs of
    them is taken from sections 3, 4.2 and 9 of the specification. *)

(** Modelled from the spec: class [Cell] of [battery.py].  A cell slot
    holds the last voltage recorded for it, or nothing yet. *)
Module Cell.

Record t : Type := mk { voltage : option Q; balance : bool }.

(** [Cell(balance)] *)
Definition new (balance : bool) : t := mk None balance.

(** [cell.voltage = v] *)
Definition set_voltage (v : Q) (c : t) : t := mk (Some v) (balance c).

End Cell.

(** Modelled from the spec: class [Protection] of [battery.py], the
    protection-level record with one tier per category, each attribute
    [None] until a frame sets it. *)
Module Protection.

Inductive field : Type :=
| voltage_high | voltage_low | voltage_cell_low | soc_low
| current_over | current_under | cell_imbalance | internal_failure
| temp_high_charge | temp_low_charge
| temp_high_discharge | temp_low_discharge.

Definition field_eq_dec (f g : field) : {f = g} + {f <> g}.
Proof. decide equality. Defined.

Definition t : Type := field -> option Z.

Definition new : t := fun _ => None.

(** [protection.f = v] *)
Definition set (f : field) (v : Z) (p : t) : t :=
  fun g => if field_eq_dec f g then Some v else p g.

End Protection.

(** Modelled from the spec: the attributes of [Battery] that
    [process_status_data] reads or writes. *)
Record Battery : Type := mkBattery {
  cells : list Cell.t;
  cell_count : option Z;
  soc : option Z;
  voltage : option Q;
  current : option Q;
  temp1 : option Q;
  temp2 : option Q;
  charge_fet : option bool;
  discharge_fet : option bool;
  protection : Protection.t;
  hardware_version : option string
}.

(** Modelled from the spec: the object [Battery.__init__] leaves, with no
    cell slot and no cell count learned (section 9). *)
Definition Battery_init : Battery :=
  mkBattery [] None None None None None None None None Protection.new None.

(** Attribute assignments. *)
Definition set_cells (v : list Cell.t) (s : Battery) : Battery :=
  mkBattery v (cell_count s) (soc s) (voltage s) (current s) (temp1 s)
            (temp2 s) (charge_fet s) (discharge_fet s) (protection s)
            (hardware_version s).

Definition set_cell_count (v : option Z) (s : Battery) : Battery :=
  mkBattery (cells s) v (soc s) (voltage s) (current s) (temp1 s)
            (temp2 s) (charge_fet s) (discharge_fet s) (protection s)
            (hardware_version s).

Definition set_soc (v : option Z) (s : Battery) : Battery :=
  mkBattery (cells s) (cell_count s) v (voltage s) (current s) (temp1 s)
            (temp2 s) (charge_fet s) (discharge_fet s) (protection s)
            (hardware_version s).

Definition set_voltage (v : option Q) (s : Battery) : Battery :=
  mkBattery (cells s) (cell_count s) (soc s) v (current s) (temp1 s)
            (temp2 s) (charge_fet s) (discharge_fet s) (protection s)
            (hardware_version s).

Definition set_current (v : option Q) (s : Battery) : Battery :=
  mkBattery (cells s) (cell_count s) (soc s) (voltage s) v (temp1 s)
            (temp2 s) (charge_fet s) (discharge_fet s) (protection s)
            (hardware_version s).

Definition set_temp1 (v : option Q) (s : Battery) : Battery :=
  mkBattery (cells s) (cell_count s) (soc s) (voltage s) (current s) v
            (temp2 s) (charge_fet s) (discharge_fet s) (protection s)
            (hardware_version s).

Definition set_temp2 (v : option Q) (s : Battery) : Battery :=
  mkBattery (cells s) (cell_count s) (soc s) (voltage s) (current s) (temp1 s)
            v (charge_fet s) (discharge_fet s) (protection s)
            (hardware_version s).

Definition set_charge_fet (v : option bool) (s : Battery) : Battery :=
  mkBattery (cells s) (cell_count s) (soc s) (voltage s) (current s) (temp1 s)
            (temp2 s) v (discharge_fet s) (protection s)
            (hardware_version s).

Definition set_discharge_fet (v : option bool) (s : Battery) : Battery :=
  mkBattery (cells s) (cell_count s) (soc s) (voltage s) (current s) (temp1 s)
            (temp2 s) (charge_fet s) v (protection s)
            (hardware_version s).

Definition set_protection (f : Protection.field) (v : Z) (s : Battery) : Battery :=
  mkBattery (cells s) (cell_count s) (soc s) (voltage s) (current s) (temp1 s)
            (temp2 s) (charge_fet s) (discharge_fet s)
            (Protection.set f v (protection s)) (hardware_version s).

Definition set_hardware_version (v : option string) (s : Battery) : Battery :=
  mkBattery (cells s) (cell_count s) (soc s) (voltage s) (current s) (temp1 s)
            (temp2 s) (charge_fet s) (discharge_fet s) (protection s) v.

(** The voltages recorded in the cell slots, in slot order. *)
Definition recorded_voltages (cs : list Cell.t) : list Q :=
  flat_map (fun c => match Cell.voltage c with
                     | Some v => [v]
                     | None => []
                     end) cs.

(** Modelled from the spec: [Battery.get_max_cell_voltage] and
    [Battery.get_min_cell_voltage] of [battery.py], the maximum and the
    minimum of all cell voltages (section 4.2).  The specification gives
    no value for a pack with no recorded voltage; 0 stands for it. *)
Definition get_max_cell_voltage (self : Battery) : Q :=
  match recorded_voltages (cells self) with
  | [] => 0%Q
  | v :: vs => fold_left Qmax vs v
  end.

Definition get_min_cell_voltage (self : Battery) : Q :=
  match recorded_voltages (cells self) with
  | [] => 0%Q
  | v :: vs => fold_left Qmin vs v
  end.

(** Modelled from the spec: [Battery.get_max_temp] and
    [Battery.get_min_temp] of [battery.py], [max(temp1, temp2)] and
    [min(temp1, temp2)] (section 4.2).  [process_status_data] calls them
    after it has set both temperatures; a missing one is left out. *)
Definition get_max_temp (self : Battery) : Q :=
  match temp1 self, temp2 self with
  | Some a, Some b => Qmax a b
  | Some a, None => a
  | None, Some b => b
  | None, None => 0%Q
  end.

Definition get_min_temp (self : Battery) : Q :=
  match temp1 self, temp2 self with
  | Some a, Some b => Qmin a b
  | Some a, None => a
  | None, Some b => b
  | None, None => 0%Q
  end.

(** ** Methods: state and exceptions *)

(** A method body takes the object and gives what it returns or raises,
    with the object as it has left it. *)
Definition method (A : Type) : Type := Battery -> result A * Battery.

Definition ret {A : Type} (a : A) : method A := fun self => (Ok a, self).

Definition bindm {A B : Type} (m : method A) (k : A -> method B) : method B :=
  fun self =>
    match m self with
    | (Ok a, self') => k a self'
    | (Raise e, self') => (Raise e, self')
    end.

(** An expression that may raise and does not touch the object. *)
Definition lift {A : Type} (r : result A) : method A := fun self => (r, self).

(** Reading [self.attr] or calling a getter. *)
Definition read {A : Type} (f : Battery -> A) : method A :=
  fun self => (Ok (f self), self).

(** [self.attr = v] *)
Definition write (f : Battery -> Battery) : method unit :=
  fun self => (Ok tt, f self).

Notation "x <~ c ;; k" := (bindm c (fun x => k))
  (at level 61, c at next level, right associativity) : py_scope.
Notation "c ;;; k" := (bindm c (fun _ => k))
  (at level 61, right associativity) : py_scope.

(** [for x in xs: body(x)] *)
Fixpoint for_each {A : Type} (xs : list A) (body : A -> method unit)
  : method unit :=
  match xs with
  | [] => ret tt
  | x :: rest => body x ;;; for_each rest body
  end.

(** [xs[j] = y] on a list, for [j] inside it. *)
Fixpoint list_set {A : Type} (xs : list A) (j : nat) (y : A) : list A :=
  match xs, j with
  | [], _ => []
  | _ :: rest, O => y :: rest
  | x :: rest, S j' => x :: list_set rest j' y
  end.

(** [self.cells[cell].voltage = voltage] *)
Definition set_cell_voltage (cell : Z) (voltage : Q) : method unit :=
  fun self =>
    match index (length (cells self)) cell with
    | Ok j =>
        match nth_error (cells self) j with
        | Some c =>
            (Ok tt, set_cells (list_set (cells self) j (Cell.set_voltage voltage c)) self)
        | None => (Raise IndexError, self)
        end
    | Raise e => (Raise e, self)
    end.

(** ** The frame interpreter *)

(** [bool(flags & pow(2, i))] *)
Definition flag (flags i : Z) : bool := negb (Z.land flags (pow 2 i) =? 0).

(** The dict [status] of lines 129-130. *)
Definition status_dict (flags : Z) : list (string * bool) :=
  map (fun '(i, name) => (name, flag flags i)) (enumerate SBMS_STATUS_CODES).

(** [Sbms0.process_status_data(self, line)], lines 114-157. *)
Definition process_status_data (line : string) : method bool :=
  if negb (len line =? LENGTH_FIXED) then ret false else
  cell_voltages <~ lift (list_comp (range SBMS_CELL_COUNT_MAX) (fun cell =>
                     d <- dcmp line (8 + cell * 2) 2 ;;
                     Ok (inject_Z d / 1000)%Q)) ;;
  count <~ read cell_count ;;
  (if negb (truthy count) then
     write (set_cells (map (fun c => Cell.new false) (range SBMS_CELL_COUNT_MAX))) ;;;
     write (set_cell_count
              (Some (Z.of_nat (length (filter (fun v => Qltb 0 v) cell_voltages)))))
   else ret tt) ;;;
  for_each (enumerate cell_voltages) (fun '(cell, voltage) =>
    if Qltb 0 voltage then set_cell_voltage cell voltage else ret tt) ;;;
  vmax <~ read get_max_cell_voltage ;;
  vmin <~ read get_min_cell_voltage ;;
  let cell_voltage_delta := (vmax - vmin)%Q in

  flags <~ lift (dcmp line 56 3) ;;
  let status := status_dict flags in

  soc_ <~ lift (dcmp line 6 2) ;;
  write (set_soc (Some soc_)) ;;;
  write (set_voltage (Some (round (sum cell_voltages) 3))) ;;;
  sign <~ lift (getitem line 28) ;;
  magnitude <~ lift (dcmp line 29 3) ;;
  amps <~ lift (float (String sign (str magnitude))) ;;
  let current_ := (amps / 1000)%Q in
  write (set_current (Some current_)) ;;;

  raw1 <~ lift (dcmp line 24 2) ;;
  write (set_temp1 (Some (inject_Z (raw1 - 450) / 10)%Q)) ;;;
  raw2 <~ lift (dcmp line 26 2) ;;
  write (set_temp2 (Some (inject_Z (raw2 - 450) / 10)%Q)) ;;;

  cfet <~ lift (getkey status "CFET") ;;
  write (set_charge_fet (Some cfet)) ;;;
  dfet <~ lift (getkey status "DFET") ;;
  write (set_discharge_fet (Some dfet)) ;;;

  ovlk <~ lift (getkey status "OVLK") ;;
  write (set_protection Protection.voltage_high (if ovlk then 2 else 0)) ;;;
  uvlk <~ lift (getkey status "UVLK") ;;
  write (set_protection Protection.voltage_low (if uvlk then 2 else 0)) ;;;
  lvc <~ lift (getkey status "LVC") ;;
  write (set_protection Protection.voltage_cell_low (if lvc then 2 else 0)) ;;;
  write (set_protection Protection.soc_low
           (if soc_ <? BATTERY_SOC_ALARM then 2
            else if soc_ <? BATTERY_SOC_WARN then 1 else 0)) ;;;
  coc <~ lift (getkey status "COC") ;;
  write (set_protection Protection.current_over (if coc then 2 else 0)) ;;;
  doc <~ lift (getkey status "DOC") ;;
  write (set_protection Protection.current_under (if doc then 2 else 0)) ;;;
  write (set_protection Protection.cell_imbalance
           (if Qltb (inject_Z BATTERY_CELL_BALANCE_ALARM) cell_voltage_delta then 2
            else if Qltb (inject_Z BATTERY_CELL_BALANCE_WARN) cell_voltage_delta then 1
            else 0)) ;;;
  eccf <~ lift (getkey status "ECCF") ;;
  eccf_or_open <~ lift (if eccf then Ok true else getkey status "OPEN") ;;
  write (set_protection Protection.internal_failure (if eccf_or_open then 2 else 0)) ;;;
  iot <~ lift (getkey status "IOT") ;;
  tmax <~ read get_max_temp ;;
  write (set_protection Protection.temp_high_charge
           (if iot || (Qltb 0 current_ && Qle_bool (inject_Z BATTERY_TEMP_HIGH_ALARM) tmax)
            then 2 else 0)) ;;;
  tmin <~ read get_min_temp ;;
  write (set_protection Protection.temp_low_charge
           (if Qle_bool tmin (inject_Z BATTERY_TEMP_HIGH_ALARM) then 2 else 0)) ;;;
  iot' <~ lift (getkey status "IOT") ;;
  tmax' <~ read get_max_temp ;;
  write (set_protection Protection.temp_high_discharge
           (if iot' || (Qltb 0 current_ && Qle_bool (inject_Z BATTERY_TEMP_HIGH_ALARM) tmax')
            then 2 else 0)) ;;;
  tmin' <~ read get_min_temp ;;
  write (set_protection Protection.temp_low_discharge
           (if Qle_bool tmin' (inject_Z BATTERY_TEMP_HIGH_ALARM) then 2 else 0)) ;;;

  count' <~ read cell_count ;;
  write (set_hardware_version (Some ("SBMS0 " ++ str_opt count' ++ " cells")%string)) ;;;
  ret true.

(** What a call returns or raises, and the object it leaves. *)
Definition outcome (line : string) (self : Battery) : result bool :=
  fst (process_status_data line self).

Definition after (line : string) (self : Battery) : Battery :=
  snd (process_status_data line self).

(** The frames of a session, processed in arrival order; a frame that is
    rejected or raises leaves the object as the call left it, and the
    next frame is processed on it. *)
Definition after_frames (lines : list string) (self : Battery) : Battery :=
  fold_left (fun s line => after line s) lines self.

(** *** The quantities a frame carries *)

(** The voltage that slot [k] of a frame decodes to, in volts. *)
Definition decoded_voltage (line : string) (k : Z) : Q :=
  (inject_Z (field_value line (8 + k * 2) 2) / 1000)%Q.

Definition decoded_voltages (line : string) : list Q :=
  map (decoded_voltage line) (range SBMS_CELL_COUNT_MAX).

(** The cell slots after lines 123-125 have stored the voltages [vs]. *)
Fixpoint stored (cs : list Cell.t) (vs : list Q) : list Cell.t :=
  match cs, vs with
  | c :: cs', v :: vs' =>
      (if Qltb 0 v then Cell.set_voltage v c else c) :: stored cs' vs'
  | _, _ => cs
  end.

(** The object has cell slots for the eight voltages of a frame once its
    cell count is learned; the object is created without any. *)
Definition cells_ready (self : Battery) : Prop :=
  truthy (cell_count self) = true -> length (cells self) = 8%nat.

(** The character at index [k] of a frame (NUL outside the frame). *)
Definition char_at (frame : string) (k : nat) : ascii :=
  match String.get k frame with
  | Some c => c
  | None => zero
  end.

(** The object after lines 120-122 have seen the voltages [vs]. *)
Definition learned (vs : list Q) (self : Battery) : Battery :=
  if truthy (cell_count self) then self
  else set_cell_count
         (Some (Z.of_nat (length (filter (fun v => Qltb 0 v) vs))))
         (set_cells (map (fun _ => Cell.new false) (range SBMS_CELL_COUNT_MAX)) self).

(** The object after lines 118-133, up to the assignment of the pack
    voltage. *)
Definition before_current (line : string) (self : Battery) : Battery :=
  let vs := decoded_voltages line in
  let s1 := learned vs self in
  let s2 := set_cells (stored (cells s1) vs) s1 in
  set_voltage (Some (round (sum vs) 3)) (set_soc (Some (field_value line 6 2)) s2).

(** The text that line 134 hands to [float]. *)
Definition current_text (line : string) : string :=
  String (char_at line 28) (str (field_value line 29 3)).

(** The level of a protection that a status flag raises. *)
Definition alarm (b : bool) : option Z := Some (if b then 2 else 0).

(** What lines 134-155 leave in the object [s'], from the object [s] that
    line 133 left, when [float] has returned [amps]. *)
Record reading (line : string) (amps : Q) (s s' : Battery) : Prop := {
  rd_cells : cells s' = cells s;
  rd_cell_count : cell_count s' = cell_count s;
  rd_soc : soc s' = soc s;
  rd_voltage : voltage s' = voltage s;
  rd_current : current s' = Some (amps / 1000)%Q;
  rd_temp1 : temp1 s' = Some (inject_Z (field_value line 24 2 - 450) / 10)%Q;
  rd_temp2 : temp2 s' = Some (inject_Z (field_value line 26 2 - 450) / 10)%Q;
  rd_charge_fet : charge_fet s' = Some (flag (field_value line 56 3) 12);
  rd_discharge_fet : discharge_fet s' = Some (flag (field_value line 56 3) 14);
  rd_voltage_high :
    protection s' Protection.voltage_high = alarm (flag (field_value line 56 3) 1);
  rd_voltage_low :
    protection s' Protection.voltage_low = alarm (flag (field_value line 56 3) 3);
  rd_voltage_cell_low :
    protection s' Protection.voltage_cell_low = alarm (flag (field_value line 56 3) 10);
  rd_soc_low :
    protection s' Protection.soc_low
    = Some (if field_value line 6 2 <? 10 then 2
            else if field_value line 6 2 <? 20 then 1 else 0);
  rd_current_over :
    protection s' Protection.current_over = alarm (flag (field_value line 56 3) 5);
  rd_current_under :
    protection s' Protection.current_under = alarm (flag (field_value line 56 3) 6);
  rd_cell_imbalance :
    protection s' Protection.cell_imbalance
    = Some (if Qltb 100 (get_max_cell_voltage s - get_min_cell_voltage s) then 2
            else if Qltb 50 (get_max_cell_voltage s - get_min_cell_voltage s) then 1
            else 0);
  rd_internal_failure :
    protection s' Protection.internal_failure
    = alarm (flag (field_value line 56 3) 11 || flag (field_value line 56 3) 9);
  rd_temp_high_charge :
    protection s' Protection.temp_high_charge
    = alarm (flag (field_value line 56 3) 4
             || (Qltb 0 (amps / 1000) && Qle_bool 40 (get_max_temp s')));
  rd_temp_low_charge :
    protection s' Protection.temp_low_charge
    = alarm (Qle_bool (get_min_temp s') 40);
  rd_temp_high_discharge :
    protection s' Protection.temp_high_discharge
    = alarm (flag (field_value line 56 3) 4
             || (Qltb 0 (amps / 1000) && Qle_bool 40 (get_max_temp s')));
  rd_temp_low_discharge :
    protection s' Protection.temp_low_discharge
    = alarm (Qle_bool (get_min_temp s') 40);
  rd_hardware_version :
    hardware_version s'
    = Some ("SBMS0 " ++ str_opt (cell_count s) ++ " cells")%string
}.

(** *** Classes of characters and texts, for the statements on [float] *)

Definition is_digit (c : ascii) : bool := (48 <=? ord c) && (ord c <=? 57).

Definition is_letter (c : ascii) : bool :=
  ((65 <=? ord c) && (ord c <=? 90)) || ((97 <=? ord c) && (ord c <=? 122)).

(** Printable ASCII: the codes 32 to 126. *)
Definition is_printable (c : ascii) : bool := (32 <=? ord c) && (ord c <=? 126).

Fixpoint all_digits (s : string) : bool :=
  match s with
  | EmptyString => true
  | String c r => is_digit c && all_digits r
  end.

Fixpoint all_printable (s : string) : bool :=
  match s with
  | EmptyString => true
  | String c r => is_printable c && all_printable r
  end.

(** A method body keeps the cell count when it leaves it as it found it,
    whether it returns or raises. *)
Definition keeps_count {A : Type} (m : method A) : Prop :=
  forall s, cell_count (snd (m s)) = cell_count s.

(** ** Sample frames

    A frame is written field by field: six characters of date and time,
    the state of charge, the eight cell voltages, the two temperatures,
    the sign and the magnitude of the current, 24 characters of other
    measurements, and the status flags.  In base 91 from ["#"], ["#s"] is
    80, ["C{"] is 3000, ["##"] is 0, ["*b"] is 700, ["*0"] is 650,
    ["#(P"] is 500 and ["%N("] is 20480 = 2^12 + 2^14. *)
Definition sample (cell_fields temperatures sign : string) : string :=
  ("######" ++ "#s" ++ cell_fields ++ temperatures ++ sign ++ "#(P"
   ++ "########################" ++ "%N(")%string.

(** Seven cells at 3000 mV and the eighth at 3050 (["DR"]), 3051 (["DS"]),
    3100 (["E)"]) and 3101 mV (["E*"]). *)
Definition frame_delta_50 : string := sample "C{C{C{C{C{C{C{DR" "*b*0" "+".
Definition frame_delta_51 : string := sample "C{C{C{C{C{C{C{DS" "*b*0" "+".
Definition frame_delta_100 : string := sample "C{C{C{C{C{C{C{E)" "*b*0" "+".
Definition frame_delta_101 : string := sample "C{C{C{C{C{C{C{E*" "*b*0" "+".

(** No cell, and then one cell at 3000 mV in slot 0. *)
Definition frame_no_cell : string := sample "################" "*b*0" "+".
Definition frame_one_cell : string := sample "C{##############" "*b*0" "+".

(** Slots 0, 1 and 7 at 3300 (["G;"]), 3310 (["GE"]) and 3290 mV
    (["G1"]); and the same with 12 mV (["#/"]) in slot 2. *)
Definition frame_three_cells : string := sample "G;GE##########G1" "*b*0" "+".
Definition frame_noise_in_slot_2 : string := sample "G;GE#/########G1" "*b*0" "+".

(** Eight cells at 3000 mV; and the same with 0 in slot 0. *)
Definition frame_eight_cells : string := sample "C{C{C{C{C{C{C{C{" "*b*0" "+".
Definition frame_slot_0_silent : string := sample "##C{C{C{C{C{C{C{" "*b*0" "+".

(** Eight cells with the signs ["-"], ["0"], ["7"] and ["A"]. *)
Definition frame_minus : string := sample "C{C{C{C{C{C{C{C{" "*b*0" "-".
Definition frame_zero_sign : string := sample "C{C{C{C{C{C{C{C{" "*b*0" "0".
Definition frame_seven_sign : string := sample "C{C{C{C{C{C{C{C{" "*b*0" "7".
Definition frame_letter_sign : string := sample "C{C{C{C{C{C{C{C{" "*b*0" "A".

(** Eight cells with the temperatures 900 ([",t"], 45.0 degrees) and 950
    (["-K"], 50.0 degrees); and with 850 ([",B"], 40.0 degrees) and 950. *)
Definition frame_hot : string := sample "C{C{C{C{C{C{C{C{" ",t-K" "+".
Definition frame_forty : string := sample "C{C{C{C{C{C{C{C{" ",B-K" "+".

(** A frame cut short by one character. *)
Definition frame_cut : string :=
  ("######" ++ "#s" ++ "C{C{C{C{C{C{C{C{" ++ "*b*0" ++ "+" ++ "#(P"
   ++ "########################" ++ "%N")%string.

(** ** The alphabet of the codec, and Python's negative indices *)

(** The characters that stand for the base-91 digits 0 to 90: the codes
    35 to 125. *)
Definition in_alphabet (c : ascii) : bool := (35 <=? ord c) && (ord c <=? 125).

Fixpoint all_in_alphabet (s : string) : bool :=
  match s with
  | EmptyString => true
  | String c r => in_alphabet c && all_in_alphabet r
  end.

(** The place that [s[k]] reads: a negative [k] counts from the end. *)
Definition wrapped (s : string) (k : Z) : Z := if k <? 0 then k + len s else k.

(** ** The objects of a session *)

(** What holds of the cell slots of an object all along a session: the
    recorded voltages lie above 0 V and at most at 20.24 V, the largest
    field of two characters; before the first frame of 59 characters there
    is no slot and no count; from then on there are eight slots, and the
    count lies between 0 and 8 and is at most the number of slots with a
    recorded voltage. *)
Definition cells_well_formed (self : Battery) : Prop :=
  Forall (fun v => 0 < v /\ v <= 20240 # 1000)%Q (recorded_voltages (cells self))
  /\ match cell_count self with
     | None => cells self = []
     | Some n =>
         0 <= n <= 8
         /\ length (cells self) = 8%nat
         /\ n <= Z.of_nat (length (recorded_voltages (cells self)))
     end.

(** ** The serial callbacks, lines 76-81 and 106-112 *)

(** [c.isspace()] on a character of a [str], among the code points
    0..255: the ASCII blanks 9-13 and 32, the separators 28-31, and the
    Latin-1 blanks 133 and 160. *)
Definition str_isspace (c : ascii) : bool :=
  existsb (Z.eqb (ord c)) [9; 10; 11; 12; 13; 28; 29; 30; 31; 32; 133; 160].

(** [s.lstrip()], [s.rstrip()] and [s.strip()] on a [str]. *)
Fixpoint str_lstrip (s : string) : string :=
  match s with
  | EmptyString => EmptyString
  | String c r => if str_isspace c then str_lstrip r else s
  end.

Fixpoint str_rstrip (s : string) : string :=
  match s with
  | EmptyString => EmptyString
  | String c r =>
      match str_rstrip r with
      | EmptyString => if str_isspace c then EmptyString else String c EmptyString
      | String c' r' => String c (String c' r')
      end
  end.

Definition strip (s : string) : string := str_rstrip (str_lstrip s).

Fixpoint all_blank (s : string) : bool :=
  match s with
  | EmptyString => true
  | String c r => str_isspace c && all_blank r
  end.

(** [Sbms0._uart_rx(self, channel, condition)], lines 106-112.  The
    channel is outside the object: [buf] is the buffer that
    [channel.read_line()] has returned, [None] when it has read nothing. *)
Definition _uart_rx (buf : option string) : method bool :=
  let line := match buf with
              | Some b => strip b
              | None => EmptyString
              end in
  accepted <~ process_status_data line ;;
  if negb accepted then ret false else ret true.


(** Carriage return and line feed. *)
Definition CR : ascii := "013"%char.
Definition LF : ascii := "010"%char.

(** ** More sample frames *)

(** A frame with its state of charge and its status flags given too. *)
Definition sample_with (soc_field cell_fields temperatures sign flags : string)
  : string :=
  ("######" ++ soc_field ++ cell_fields ++ temperatures ++ sign ++ "#(P"
   ++ "########################" ++ flags)%string.


(** Eight cells with the flags OVLK, DOC and OPEN: ["#)C"] is
    578 = 2^1 + 2^6 + 2^9. *)
Definition frame_alarms : string :=
  sample_with "#s" "C{C{C{C{C{C{C{C{" "*b*0" "+" "#)C".

(** Eight cells at 45.0 and 50.0 degrees, with a current of -0.5 A; and
    at 25.0 and 20.0 degrees with the flag IOT: ["##3"] is 16 = 2^4. *)
Definition frame_hot_discharging : string := sample "C{C{C{C{C{C{C{C{" ",t-K" "-".
Definition frame_over_temperature : string :=
  sample_with "#s" "C{C{C{C{C{C{C{C{" "*b*0" "-" "##3".

(** Eight cells charging at 0.5 A, at 40.0 and 20.0 degrees ([",B"] and
    ["*0"]); and at 39.9 ([",A"]) and 20.0 degrees. *)
Definition frame_max_40 : string := sample "C{C{C{C{C{C{C{C{" ",B*0" "+".
Definition frame_max_39_9 : string := sample "C{C{C{C{C{C{C{C{" ",A*0" "+".

(** Eight cells with the flags CFET and DFET, and with OV, UV, DSC, CELF
    and EOC besides: ["&QC"] is 29061 = 20480 + 2^0 + 2^2 + 2^7 + 2^8 +
    2^13. *)
Definition frame_unread_flags : string :=
  sample_with "#s" "C{C{C{C{C{C{C{C{" "*b*0" "+" "&QC".

(** ** Relations between objects and between frames *)

(** Two objects with the same attributes. *)
Definition same_object (a b : Battery) : Prop :=
  cells a = cells b /\ cell_count a = cell_count b
  /\ soc a = soc b /\ voltage a = voltage b /\ current a = current b
  /\ temp1 a = temp1 b /\ temp2 a = temp2 b
  /\ charge_fet a = charge_fet b /\ discharge_fet a = discharge_fet b
  /\ (forall f, protection a f = protection b f)
  /\ hardware_version a = hardware_version b.

(** Two frames with the same 56 characters before the status flags. *)
Definition same_before_flags (l1 l2 : string) : Prop :=
  forall k, (k < 56)%nat -> String.get k l1 = String.get k l2.

(** The status bits that [process_status_data] looks up: OVLK, UVLK, IOT,
    COC, DOC, OPEN, LVC, ECCF, CFET and DFET. *)
Definition bits_read : list Z := [1; 3; 4; 5; 6; 9; 10; 11; 12; 14].

(* ====================================================================== *)
(** * Properties *)

(** ** The loop and the indexing primitives *)

Lemma range_succ (n : nat) :
  range (Z.of_nat (S n)) = range (Z.of_nat n) ++ [Z.of_nat n].
Proof.
  unfold range. rewrite !Nat2Z.id, seq_S, map_app. reflexivity.
Qed.

Lemma range_nonpos (n : Z) : n <= 0 -> range n = [].
Proof.
  intros H. unfold range.
  replace (Z.to_nat n) with O by lia. reflexivity.
Qed.

Lemma for_in_app {A S : Type} (xs ys : list A) (acc : S) body :
  for_in (xs ++ ys) acc body
  = Py.bind (for_in xs acc body) (fun acc' => for_in ys acc' body).
Proof.
  revert acc. induction xs as [|x xs IH]; intros acc; simpl.
  - reflexivity.
  - destruct (body x acc) as [acc'|e]; simpl; [apply IH | reflexivity].
Qed.

Lemma get_some (s : string) (n : nat) :
  (n < String.length s)%nat -> exists c, String.get n s = Some c.
Proof.
  revert n. induction s as [|a s IH]; intros n H; simpl in *.
  - lia.
  - destruct n as [|n]; [eauto | apply IH; lia].
Qed.

Lemma get_none (s : string) (n : nat) :
  (String.length s <= n)%nat -> String.get n s = None.
Proof.
  revert n. induction s as [|a s IH]; intros n H; simpl in *.
  - reflexivity.
  - destruct n as [|n]; [lia | apply IH; lia].
Qed.

Lemma index_inside (n : nat) (k : Z) :
  0 <= k < Z.of_nat n -> index n k = Ok (Z.to_nat k).
Proof.
  intros [H0 H1]. unfold index.
  destruct (Z.ltb_spec k 0); [lia|].
  destruct (Z.leb_spec 0 k); [|lia].
  destruct (Z.ltb_spec k (Z.of_nat n)); [|lia].
  reflexivity.
Qed.

(** Inside the frame, [s[k]] is the character whose code [code_at] gives. *)
Lemma getitem_inside (s : string) (k : Z) :
  0 <= k < len s ->
  exists c, getitem s k = Ok c /\ ord c = code_at s k.
Proof.
  intros [H0 H1]. unfold len in H1. unfold getitem, code_at.
  rewrite index_inside by lia.
  destruct (get_some s (Z.to_nat k)) as [c Hc]; [lia|].
  rewrite Hc. eauto.
Qed.

(** At or past the end, [s[k]] raises. *)
Lemma getitem_outside (s : string) (k : Z) :
  len s <= k -> getitem s k = Raise IndexError.
Proof.
  intros H. unfold getitem, index, len in *.
  destruct (Z.ltb_spec k 0); [lia|].
  destruct (Z.leb_spec 0 k); [|lia].
  destruct (Z.ltb_spec k (Z.of_nat (String.length s))); [lia|].
  reflexivity.
Qed.

(** ** The decoder computes the weighted sum *)

Lemma dcmp_loop (comp : string) (pos size : Z) (m : nat) :
  0 <= pos -> pos + size <= len comp -> Z.of_nat m <= size ->
  for_in (range (Z.of_nat m)) 0 (fun i decomp =>
    c <- getitem comp ((pos + size - 1) - i) ;;
    Ok (decomp + (ord c - 35) * pow 91 i))
  = Ok (sigma m (fun i => digit comp (pos + size - 1 - i) * 91 ^ i)).
Proof.
  intros Hpos Hlen. induction m as [|m IH]; intros Hm.
  - reflexivity.
  - rewrite range_succ, for_in_app, IH by lia. simpl.
    destruct (getitem_inside comp (pos + size - 1 - Z.of_nat m)) as (c & Hc & Ho);
      [lia|].
    rewrite Hc. simpl. unfold digit, pow. rewrite Ho. reflexivity.
Qed.

Lemma dcmp_value (comp : string) (pos size : Z) :
  0 <= pos -> pos + size <= len comp ->
  dcmp comp pos size = Ok (field_value comp pos size).
Proof.
  intros Hpos Hlen. unfold dcmp, field_value.
  destruct (Z.le_gt_cases size 0) as [Hs|Hs].
  - rewrite range_nonpos by assumption.
    replace (Z.to_nat size) with O by lia. reflexivity.
  - rewrite <- (Z2Nat.id size) at 1 by lia.
    apply dcmp_loop; lia.
Qed.

(** C1.  For a frame, a position [pos >= 0] and a size with
    [pos + size <= len frame], [dcmp frame pos size] returns the sum over
    [i] in [0, size) of (the code of the character at index
    [pos + size - 1 - i], minus 35) times [91^i]: the character at the
    highest index of the slice is the least significant base-91 digit. *)
Theorem dcmp_weighted_sum (frame : string) (pos size : Z) :
  0 <= pos -> pos + size <= len frame ->
  dcmp frame pos size
  = Ok (sigma (Z.to_nat size)
          (fun i => (code_at frame (pos + size - 1 - i) - 35) * 91 ^ i)).
Proof.
  intros Hpos Hlen. rewrite dcmp_value by assumption. reflexivity.
Qed.

Lemma dcmp_weighted_sum_witness :
  dcmp "ab#$%z" 2 3 = Ok (0 * 91 ^ 2 + 1 * 91 + 2)
  /\ dcmp "ab#$%z" 2 3
     = Ok (sigma 3 (fun i => (code_at "ab#$%z" (2 + 3 - 1 - i) - 35) * 91 ^ i)).
Proof.
  split; [reflexivity | apply (dcmp_weighted_sum "ab#$%z" 2 3); vm_compute; discriminate].
Defined.

(** ** Encoding, then decoding *)

Lemma sigma_ext (n : nat) (f g : Z -> Z) :
  (forall i, 0 <= i < Z.of_nat n -> f i = g i) -> sigma n f = sigma n g.
Proof.
  induction n as [|n IH]; intros H; simpl.
  - reflexivity.
  - rewrite IH by (intros i Hi; apply H; lia). rewrite H by lia. reflexivity.
Qed.

Lemma length_encode_digits (ds : list Z) :
  String.length (encode_digits ds) = length ds.
Proof. induction ds as [|d ds IH]; simpl; congruence. Qed.

Lemma ord_chr (n : Z) : 0 <= n < 256 -> ord (chr n) = n.
Proof.
  intros H. unfold ord, chr. rewrite N_ascii_embedding by lia. lia.
Qed.

Lemma code_at_head (c : ascii) (s : string) : code_at (String c s) 0 = ord c.
Proof. reflexivity. Qed.

Lemma code_at_tail (c : ascii) (s : string) (k : Z) :
  0 < k -> code_at (String c s) k = code_at s (k - 1).
Proof.
  intros H. unfold code_at.
  replace (Z.to_nat k) with (S (Z.to_nat (k - 1))) by lia. reflexivity.
Qed.

Lemma field_value_cons (c : ascii) (s : string) (n : nat) :
  field_value (String c s) 0 (Z.of_nat (S n))
  = (ord c - 35) * 91 ^ Z.of_nat n + field_value s 0 (Z.of_nat n).
Proof.
  unfold field_value. rewrite !Nat2Z.id. cbn [sigma].
  rewrite (sigma_ext n _ (fun i => digit s (0 + Z.of_nat n - 1 - i) * 91 ^ i)).
  - replace (0 + Z.of_nat (S n) - 1 - Z.of_nat n) with 0 by lia.
    unfold digit at 2. rewrite code_at_head. lia.
  - intros i Hi. unfold digit. rewrite code_at_tail by lia.
    do 3 f_equal. lia.
Qed.

Lemma digits_value_from (ds : list Z) (a : Z) :
  fold_left (fun acc d => acc * 91 + d) ds a
  = a * 91 ^ Z.of_nat (length ds) + digits_value ds.
Proof.
  unfold digits_value. revert a. induction ds as [|d ds IH]; intros a.
  - simpl. lia.
  - cbn [fold_left length]. rewrite IH, (IH (0 * 91 + d)).
    rewrite Nat2Z.inj_succ, Z.pow_succ_r by lia. lia.
Qed.

Lemma digits_value_snoc (ds : list Z) (d : Z) :
  digits_value (ds ++ [d]) = digits_value ds * 91 + d.
Proof. unfold digits_value. rewrite fold_left_app. reflexivity. Qed.

(** The field of an encoded digit sequence has the value of the sequence. *)
Lemma field_value_encode_digits (ds : list Z) :
  Forall (fun d => 0 <= d <= 90) ds ->
  field_value (encode_digits ds) 0 (Z.of_nat (length ds)) = digits_value ds.
Proof.
  induction 1 as [|d ds Hd _ IH].
  - reflexivity.
  - cbn [encode_digits fold_right length]. rewrite field_value_cons.
    fold (encode_digits ds). rewrite IH, ord_chr by lia.
    unfold digits_value at 2. cbn [fold_left]. rewrite digits_value_from. lia.
Qed.

Lemma length_to_digits (n : nat) (v : Z) : length (to_digits n v) = n.
Proof.
  revert v. induction n as [|n IH]; intros v; simpl.
  - reflexivity.
  - rewrite length_app, IH. simpl. lia.
Qed.

Lemma to_digits_range (n : nat) (v : Z) :
  Forall (fun d => 0 <= d <= 90) (to_digits n v).
Proof.
  revert v. induction n as [|n IH]; intros v; simpl.
  - constructor.
  - apply Forall_app. split; [apply IH|].
    constructor; [|constructor].
    pose proof (Z.mod_pos_bound v 91). lia.
Qed.

Lemma digits_value_to_digits (n : nat) (v : Z) :
  0 <= v < 91 ^ Z.of_nat n -> digits_value (to_digits n v) = v.
Proof.
  revert v. induction n as [|n IH]; intros v Hv.
  - simpl in *. unfold digits_value. simpl. lia.
  - cbn [to_digits]. rewrite digits_value_snoc, IH.
    + pose proof (Z.div_mod v 91). lia.
    + rewrite Nat2Z.inj_succ, Z.pow_succ_r in Hv by lia.
      split; [apply Z.div_pos; lia | apply Z.div_lt_upper_bound; lia].
Qed.

Lemma to_digits_digits_value (ds : list Z) :
  Forall (fun d => 0 <= d <= 90) ds ->
  to_digits (length ds) (digits_value ds) = ds.
Proof.
  induction ds as [|d ds IH] using rev_ind; intros H.
  - reflexivity.
  - apply Forall_app in H. destruct H as [Hds Hd].
    inversion Hd as [|? ? Hd0 _]; subst.
    rewrite length_app, Nat.add_comm. cbn [length Nat.add to_digits].
    rewrite digits_value_snoc.
    replace ((digits_value ds * 91 + d) / 91) with (digits_value ds)
      by (apply Z.div_unique with d; lia).
    replace ((digits_value ds * 91 + d) mod 91) with d
      by (apply Z.mod_unique with (digits_value ds); lia).
    rewrite IH by assumption. reflexivity.
Qed.

(** C9.  For a digit sequence with every digit in [0, 90], encoding it
    (digit [d] as the character of code [d + 35], most significant digit
    first) and decoding the string with [dcmp] over its whole width
    returns the value of the sequence, whose base-91 digits at that width
    are the original sequence again; and the encoder of that value at
    that width gives back the same string. *)
Theorem encode_then_dcmp (ds : list Z) :
  Forall (fun d => 0 <= d <= 90) ds ->
  dcmp (encode_digits ds) 0 (Z.of_nat (length ds)) = Ok (digits_value ds)
  /\ to_digits (length ds) (digits_value ds) = ds
  /\ encode (length ds) (digits_value ds) = encode_digits ds.
Proof.
  intros H. split; [|split].
  - rewrite dcmp_value.
    + rewrite field_value_encode_digits by assumption. reflexivity.
    + lia.
    + unfold len. rewrite length_encode_digits. lia.
  - apply to_digits_digits_value; assumption.
  - unfold encode. rewrite to_digits_digits_value by assumption. reflexivity.
Qed.

Lemma encode_then_dcmp_witness :
  Forall (fun d => 0 <= d <= 90) [2; 43; 5]
  /\ encode_digits [2; 43; 5] = "%N("%string
  /\ dcmp "%N(" 0 3 = Ok 20480
  /\ to_digits 3 20480 = [2; 43; 5].
Proof.
  assert (H : Forall (fun d => 0 <= d <= 90) [2; 43; 5])
    by (repeat constructor; lia).
  split; [exact H|].
  split; [reflexivity|].
  destruct (encode_then_dcmp [2; 43; 5] H) as (Hd & Ht & _).
  split; [exact Hd | exact Ht].
Defined.

(** The same law on values: a value below [91^n], encoded at width [n],
    decodes to itself. *)
Lemma dcmp_encode (n : nat) (v : Z) :
  0 <= v < 91 ^ Z.of_nat n -> dcmp (encode n v) 0 (Z.of_nat n) = Ok v.
Proof.
  intros Hv. unfold encode.
  rewrite <- (length_to_digits n v) at 2.
  rewrite dcmp_value.
  - rewrite field_value_encode_digits by apply to_digits_range.
    rewrite digits_value_to_digits by assumption. reflexivity.
  - lia.
  - unfold len. rewrite length_encode_digits. lia.
Qed.

(** ** Running a method *)

Lemma bindm_lift_ok {A B : Type} (r : result A) (a : A) (k : A -> method B) s :
  r = Ok a -> bindm (lift r) k s = k a s.
Proof. intros ->. reflexivity. Qed.

Lemma bindm_lift_raise {A B : Type} (r : result A) e (k : A -> method B) s :
  r = Raise e -> bindm (lift r) k s = (Raise e, s).
Proof. intros ->. reflexivity. Qed.

Lemma bindm_read {A B : Type} (f : Battery -> A) (k : A -> method B) s :
  bindm (read f) k s = k (f s) s.
Proof. reflexivity. Qed.

Lemma bindm_write {B : Type} (f : Battery -> Battery) (k : unit -> method B) s :
  bindm (write f) k s = k tt (f s).
Proof. reflexivity. Qed.

Lemma bindm_run {A B : Type} (m : method A) (a : A) (k : A -> method B) s s' :
  m s = (Ok a, s') -> bindm m k s = k a s'.
Proof. intros H. unfold bindm. rewrite H. reflexivity. Qed.

Lemma in_range (n x : Z) : In x (range n) <-> 0 <= x < n.
Proof.
  unfold range. rewrite in_map_iff. split.
  - intros (k & <- & Hk). apply in_seq in Hk. lia.
  - intros H. exists (Z.to_nat x). split; [lia | apply in_seq; lia].
Qed.

Lemma list_comp_map {A B : Type} (xs : list A) (f : A -> result B) (g : A -> B) :
  (forall x, In x xs -> f x = Ok (g x)) -> list_comp xs f = Ok (map g xs).
Proof.
  induction xs as [|x xs IH]; intros H; simpl.
  - reflexivity.
  - rewrite H by (left; reflexivity). simpl.
    rewrite IH by (intros y Hy; apply H; right; exact Hy). reflexivity.
Qed.

(** ** The fields of a frame of 59 characters *)

Section Frame.

Variable line : string.
Hypothesis line_length : len line = LENGTH_FIXED.

Lemma dcmp_field (pos size : Z) :
  0 <= pos -> pos + size <= 59 ->
  dcmp line pos size = Ok (field_value line pos size).
Proof.
  intros H0 H1. apply dcmp_value; [assumption|].
  rewrite line_length. unfold LENGTH_FIXED. lia.
Qed.

Lemma cell_voltages_decoded :
  list_comp (range SBMS_CELL_COUNT_MAX) (fun cell =>
    d <- dcmp line (8 + cell * 2) 2 ;; Ok (inject_Z d / 1000)%Q)
  = Ok (decoded_voltages line).
Proof.
  unfold decoded_voltages. apply list_comp_map.
  intros x Hx. apply in_range in Hx. unfold SBMS_CELL_COUNT_MAX in Hx.
  rewrite dcmp_field by lia. reflexivity.
Qed.

End Frame.

(** ** The status flags *)

Lemma getkey_status (flags : Z) (i : nat) (name : string) :
  nth_error SBMS_STATUS_CODES i = Some name ->
  getkey (status_dict flags) name = Ok (flag flags (Z.of_nat i)).
Proof.
  do 15 (destruct i as [|i]; [intros [= <-]; reflexivity|]).
  destruct i; discriminate.
Qed.

(** ** Storing the cell voltages, lines 123-125 *)

Lemma set_cells_same (s : Battery) : set_cells (cells s) s = s.
Proof. destruct s; reflexivity. Qed.

Lemma stored_nil (cs : list Cell.t) : stored cs [] = cs.
Proof. destruct cs; reflexivity. Qed.

Lemma length_stored (cs : list Cell.t) (vs : list Q) :
  length (stored cs vs) = length cs.
Proof.
  revert vs. induction cs as [|c cs IH]; intros [|v vs]; simpl; congruence.
Qed.

Lemma list_set_middle {A : Type} (pre : list A) (x y : A) (post : list A) :
  list_set (pre ++ x :: post) (length pre) y = pre ++ y :: post.
Proof. induction pre as [|p pre IH]; simpl; congruence. Qed.

Lemma nth_error_middle {A : Type} (pre : list A) (x : A) (post : list A) :
  nth_error (pre ++ x :: post) (length pre) = Some x.
Proof. induction pre as [|p pre IH]; simpl; congruence. Qed.

Lemma store_loop (vs : list Q) :
  forall (cs pre : list Cell.t) (s : Battery),
    cells s = pre ++ cs -> (length vs <= length cs)%nat ->
    for_each (combine (map Z.of_nat (seq (length pre) (length vs))) vs)
      (fun '(cell, voltage) =>
         if Qltb 0 voltage then set_cell_voltage cell voltage else ret tt) s
    = (Ok tt, set_cells (pre ++ stored cs vs) s).
Proof.
  induction vs as [|v vs IH]; intros cs pre s Hs Hlen.
  - rewrite stored_nil, <- Hs, set_cells_same. reflexivity.
  - destruct cs as [|c cs]; [simpl in Hlen; lia|].
    cbn [length seq map combine for_each stored].
    assert (Hnext : forall s1 c1,
               cells s1 = (pre ++ [c1]) ++ cs ->
               set_cells (pre ++ c1 :: stored cs vs) s = set_cells ((pre ++ [c1]) ++ stored cs vs) s1 ->
               for_each (combine (map Z.of_nat (seq (S (length pre)) (length vs))) vs)
                 (fun '(cell, voltage) =>
                    if Qltb 0 voltage then set_cell_voltage cell voltage else ret tt) s1
               = (Ok tt, set_cells (pre ++ c1 :: stored cs vs) s)).
    { intros s1 c1 H1 H2. rewrite H2.
      replace (S (length pre)) with (length (pre ++ [c1]))
        by (rewrite length_app; simpl; lia).
      apply IH; [assumption | simpl in Hlen; lia]. }
    destruct (Qltb 0 v).
    + rewrite bindm_run
        with (a := tt) (s' := set_cells (pre ++ Cell.set_voltage v c :: cs) s).
      * apply Hnext.
        -- cbn [cells set_cells]. rewrite <- app_assoc. reflexivity.
        -- rewrite <- app_assoc. reflexivity.
      * unfold set_cell_voltage. rewrite Hs.
        rewrite index_inside by (rewrite length_app; simpl; lia).
        rewrite Nat2Z.id, nth_error_middle, list_set_middle. reflexivity.
    + rewrite bindm_run with (a := tt) (s' := s).
      * apply Hnext.
        -- rewrite Hs, <- app_assoc. reflexivity.
        -- rewrite <- app_assoc. reflexivity.
      * reflexivity.
Qed.

Lemma store_voltages (vs : list Q) (s : Battery) :
  (length vs <= length (cells s))%nat ->
  for_each (enumerate vs)
    (fun '(cell, voltage) =>
       if Qltb 0 voltage then set_cell_voltage cell voltage else ret tt) s
  = (Ok tt, set_cells (stored (cells s) vs) s).
Proof.
  intros H. unfold enumerate, range. rewrite Nat2Z.id.
  apply (store_loop vs (cells s) [] s); [reflexivity | assumption].
Qed.

(** ** One call on a frame of 59 characters *)

Lemma getitem_char (s : string) (k : nat) :
  (k < String.length s)%nat -> getitem s (Z.of_nat k) = Ok (char_at s k).
Proof.
  intros H. unfold getitem, char_at.
  rewrite index_inside, Nat2Z.id by lia.
  destruct (get_some s k H) as [c ->]. reflexivity.
Qed.

Lemma length_decoded_voltages (line : string) :
  length (decoded_voltages line) = 8%nat.
Proof. reflexivity. Qed.

Lemma length_learned_cells (vs : list Q) (self : Battery) :
  cells_ready self -> length (cells (learned vs self)) = 8%nat.
Proof.
  intros H. unfold learned.
  destruct (truthy (cell_count self)) eqn:E; [apply H; exact E | reflexivity].
Qed.

(** A call on a frame of 59 characters, on an object with its cell slots:
    it goes as far as line 133, and then either [float] raises, or the
    call returns [True] and leaves a reading. *)
Lemma process_frame (line : string) (self : Battery) :
  len line = LENGTH_FIXED -> cells_ready self ->
  match float (current_text line) with
  | Raise e =>
      process_status_data line self = (Raise e, before_current line self)
  | Ok amps =>
      exists s',
        process_status_data line self = (Ok true, s')
        /\ reading line amps (before_current line self) s'
  end.
Proof.
  intros Hlen Hready. unfold process_status_data.
  rewrite Hlen, Z.eqb_refl. cbn [negb].
  rewrite (bindm_lift_ok _ _ _ _ (cell_voltages_decoded line Hlen)).
  rewrite bindm_read.
  rewrite bindm_run with (a := tt) (s' := learned (decoded_voltages line) self)
    by (unfold learned; destruct (truthy (cell_count self)); reflexivity).
  rewrite bindm_run with (a := tt)
    (s' := set_cells (stored (cells (learned (decoded_voltages line) self))
                        (decoded_voltages line))
             (learned (decoded_voltages line) self))
    by (apply store_voltages;
        rewrite length_learned_cells, length_decoded_voltages by assumption; lia).
  rewrite !bindm_read. cbv zeta.
  rewrite (bindm_lift_ok _ _ _ _ (dcmp_field line Hlen 56 3 ltac:(lia) ltac:(lia))).
  rewrite (bindm_lift_ok _ _ _ _ (dcmp_field line Hlen 6 2 ltac:(lia) ltac:(lia))).
  rewrite !bindm_write.
  assert (H28 : getitem line 28 = Ok (char_at line 28)).
  { apply (getitem_char line 28). unfold len, LENGTH_FIXED in Hlen. lia. }
  rewrite (bindm_lift_ok _ _ _ _ H28).
  rewrite (bindm_lift_ok _ _ _ _ (dcmp_field line Hlen 29 3 ltac:(lia) ltac:(lia))).
  fold (current_text line). fold (before_current line self).
  destruct (float (current_text line)) as [amps|e].
  2: { reflexivity. }
  rewrite (bindm_lift_ok _ amps) by reflexivity.
  rewrite bindm_write.
  rewrite (bindm_lift_ok _ _ _ _ (dcmp_field line Hlen 24 2 ltac:(lia) ltac:(lia))).
  rewrite bindm_write.
  rewrite (bindm_lift_ok _ _ _ _ (dcmp_field line Hlen 26 2 ltac:(lia) ltac:(lia))).
  rewrite bindm_write.
  rewrite (bindm_lift_ok _ _ _ _ (getkey_status _ 12 "CFET" eq_refl)), bindm_write.
  rewrite (bindm_lift_ok _ _ _ _ (getkey_status _ 14 "DFET" eq_refl)), bindm_write.
  rewrite (bindm_lift_ok _ _ _ _ (getkey_status _ 1 "OVLK" eq_refl)), bindm_write.
  rewrite (bindm_lift_ok _ _ _ _ (getkey_status _ 3 "UVLK" eq_refl)), bindm_write.
  rewrite (bindm_lift_ok _ _ _ _ (getkey_status _ 10 "LVC" eq_refl)), bindm_write.
  rewrite bindm_write.
  rewrite (bindm_lift_ok _ _ _ _ (getkey_status _ 5 "COC" eq_refl)), bindm_write.
  rewrite (bindm_lift_ok _ _ _ _ (getkey_status _ 6 "DOC" eq_refl)), bindm_write.
  rewrite bindm_write.
  rewrite (bindm_lift_ok _ _ _ _ (getkey_status _ 11 "ECCF" eq_refl)).
  rewrite (bindm_lift_ok _
             (flag (field_value line 56 3) 11 || flag (field_value line 56 3) 9))
    by (change (Z.of_nat 11) with 11;
        destruct (flag (field_value line 56 3) 11);
        [reflexivity | apply (getkey_status _ 9 "OPEN" eq_refl)]).
  rewrite bindm_write.
  rewrite (bindm_lift_ok _ _ _ _ (getkey_status _ 4 "IOT" eq_refl)).
  rewrite bindm_read, bindm_write, bindm_read, bindm_write.
  rewrite (bindm_lift_ok _ _ _ _ (getkey_status _ 4 "IOT" eq_refl)).
  rewrite bindm_read, bindm_write, bindm_read, bindm_write.
  rewrite bindm_read, bindm_write.
  eexists. split; [reflexivity|].
  constructor; reflexivity.
Qed.

(** ** What no call changes: a cell count once learned *)

Lemma keeps_ret {A : Type} (a : A) : keeps_count (ret a).
Proof. intros s. reflexivity. Qed.

Lemma keeps_lift {A : Type} (r : result A) : keeps_count (lift r).
Proof. intros s. reflexivity. Qed.

Lemma keeps_read {A : Type} (f : Battery -> A) : keeps_count (read f).
Proof. intros s. reflexivity. Qed.

Lemma keeps_write (f : Battery -> Battery) :
  (forall s, cell_count (f s) = cell_count s) -> keeps_count (write f).
Proof. intros H s. apply H. Qed.

Lemma keeps_bind {A B : Type} (m : method A) (k : A -> method B) :
  keeps_count m -> (forall a, keeps_count (k a)) -> keeps_count (bindm m k).
Proof.
  intros Hm Hk s. unfold bindm. specialize (Hm s).
  destruct (m s) as [[a|e] s1]; simpl in *.
  - rewrite Hk. exact Hm.
  - exact Hm.
Qed.

Lemma keeps_set_cell_voltage (cell : Z) (v : Q) :
  keeps_count (set_cell_voltage cell v).
Proof.
  intros s. unfold set_cell_voltage.
  destruct (index (length (cells s)) cell) as [j|e]; [|reflexivity].
  destruct (nth_error (cells s) j); reflexivity.
Qed.

Lemma keeps_for_each {A : Type} (xs : list A) (body : A -> method unit) :
  (forall x, keeps_count (body x)) -> keeps_count (for_each xs body).
Proof.
  intros H. induction xs as [|x xs IH]; simpl.
  - apply keeps_ret.
  - apply keeps_bind; [apply H | intros _; exact IH].
Qed.

Create HintDb keeps.
#[local] Hint Resolve keeps_ret keeps_lift keeps_read keeps_set_cell_voltage : keeps.

Ltac keeps_step :=
  first
    [ apply keeps_bind; [|intro]
    | apply keeps_write; intro; reflexivity
    | apply keeps_for_each; intros [? ?]
    | match goal with |- keeps_count (if ?b then _ else _) => destruct b end
    | solve [auto with keeps] ].

(** Once the cell count is learned and nonzero, a call leaves it as it
    is: on any frame, in any object, returning or raising. *)
Lemma cell_count_kept (line : string) (self : Battery) :
  truthy (cell_count self) = true ->
  cell_count (after line self) = cell_count self.
Proof.
  intros Ht. unfold after, process_status_data.
  destruct (negb (len line =? LENGTH_FIXED)); [reflexivity|].
  unfold bindm at 1. cbn [lift].
  destruct (list_comp _ _) as [vs|e]; [|reflexivity].
  rewrite bindm_read, Ht. cbn [negb].
  match goal with
  | |- cell_count (snd (?m self)) = _ =>
      cut (keeps_count m); [intros K; apply K|]
  end.
  cbv zeta. repeat keeps_step.
Qed.

(** ** [float] on a sign and the digits of an integer *)

Lemma digit_char (c : ascii) :
  is_digit c = true ->
  isspace c = false /\ Ascii.eqb c "-" = false /\ Ascii.eqb c "+" = false
  /\ Ascii.eqb c "." = false.
Proof.
  destruct c as [[] [] [] [] [] [] [] []]; intros H;
    try discriminate H; repeat split; reflexivity.
Qed.

Lemma letter_char (c : ascii) :
  is_letter c = true ->
  isspace c = false /\ Ascii.eqb c "-" = false /\ Ascii.eqb c "+" = false
  /\ Ascii.eqb c "." = false /\ forall d, uint_of_char c d = None.
Proof.
  destruct c as [[] [] [] [] [] [] [] []]; intros H;
    try discriminate H; repeat split; try reflexivity;
    intros [d|]; reflexivity.
Qed.

Lemma all_digits_string_of_uint (d : Decimal.uint) :
  all_digits (NilEmpty.string_of_uint d) = true.
Proof. induction d; simpl; auto. Qed.

Lemma rstrip_digits (s : string) : all_digits s = true -> rstrip s = s.
Proof.
  induction s as [|c r IH]; intros H; [reflexivity|].
  cbn [all_digits] in H. apply andb_prop in H. destruct H as [Hc Hr].
  cbn [rstrip]. rewrite (IH Hr).
  destruct r; [|reflexivity].
  destruct (digit_char c Hc) as (-> & _). reflexivity.
Qed.

Lemma split_point_digits (s : string) :
  all_digits s = true -> split_point s = (s, None).
Proof.
  induction s as [|c r IH]; intros H; [reflexivity|].
  cbn [all_digits] in H. apply andb_prop in H. destruct H as [Hc Hr].
  cbn [split_point]. rewrite (IH Hr).
  destruct (digit_char c Hc) as (_ & _ & _ & ->). reflexivity.
Qed.

(** A run of digits with at least one digit is a number. *)
Lemma number_digits (d : Decimal.uint) :
  d <> Decimal.Nil ->
  number (NilEmpty.string_of_uint d) = Some (inject_Z (Z.of_uint d)).
Proof.
  intros Hd. unfold number, digitpart.
  rewrite split_point_digits by apply all_digits_string_of_uint.
  rewrite NilEmpty.usu.
  destruct d; try reflexivity. contradiction.
Qed.

Lemma float_digits (d : Decimal.uint) :
  d <> Decimal.Nil ->
  float (NilEmpty.string_of_uint d) = Ok (inject_Z (Z.of_uint d)).
Proof.
  intros Hd. unfold float.
  pose proof (all_digits_string_of_uint d) as Hall.
  pose proof (number_digits d Hd) as Hnum.
  destruct (NilEmpty.string_of_uint d) as [|c r] eqn:E.
  - destruct d; try discriminate E. contradiction.
  - pose proof Hall as Hall'. cbn [all_digits] in Hall'.
    apply andb_prop in Hall'. destruct Hall' as [Hc _].
    destruct (digit_char c Hc) as (Hs & Hm & Hp & _).
    cbn [lstrip]. rewrite Hs, (rstrip_digits _ Hall), Hm, Hp, Hnum.
    reflexivity.
Qed.

(** A sign before a run of digits. *)
Lemma float_signed (sign : ascii) (d : Decimal.uint) :
  d <> Decimal.Nil -> sign = "-"%char \/ sign = "+"%char ->
  float (String sign (NilEmpty.string_of_uint d))
  = Ok (if Ascii.eqb sign "-" then - inject_Z (Z.of_uint d)
        else inject_Z (Z.of_uint d))%Q.
Proof.
  intros Hd Hsign.
  pose proof (all_digits_string_of_uint d) as Hall.
  assert (Hspace : isspace sign = false) by (destruct Hsign as [->| ->]; reflexivity).
  unfold float. cbn [lstrip]. rewrite Hspace.
  assert (E : rstrip (String sign (NilEmpty.string_of_uint d))
              = String sign (NilEmpty.string_of_uint d)).
  { cbn [rstrip]. rewrite (rstrip_digits _ Hall), Hspace.
    destruct (NilEmpty.string_of_uint d); reflexivity. }
  rewrite E.
  destruct Hsign as [->| ->]; cbn [Ascii.eqb Bool.eqb];
    rewrite (number_digits d Hd); reflexivity.
Qed.

(** A blank before a run of digits is stripped. *)
Lemma float_blank (c : ascii) (d : Decimal.uint) :
  d <> Decimal.Nil -> isspace c = true ->
  float (String c (NilEmpty.string_of_uint d)) = Ok (inject_Z (Z.of_uint d)).
Proof.
  intros Hd Hc. rewrite <- (float_digits d Hd).
  unfold float. cbn [lstrip]. rewrite Hc. reflexivity.
Qed.

(** A zero before a run of digits is one more digit, of no weight. *)
Lemma float_leading_zero (d : Decimal.uint) :
  float (String "0" (NilEmpty.string_of_uint d)) = Ok (inject_Z (Z.of_uint d)).
Proof. apply (float_digits (Decimal.D0 d)). discriminate. Qed.

(** [str] of a non-negative integer is a run of digits of that value. *)
Lemma str_nonneg (m : Z) :
  0 <= m ->
  exists d, str m = NilEmpty.string_of_uint d /\ d <> Decimal.Nil /\ Z.of_uint d = m.
Proof.
  intros H. destruct m as [|p|p]; [| |lia].
  - exists (Decimal.D0 Decimal.Nil). repeat split. discriminate.
  - exists (Pos.to_uint p). unfold str, Z.to_int, NilZero.string_of_int.
    pose proof (Unsigned.to_uint_nonnil p) as Hn.
    repeat split.
    + unfold NilZero.string_of_uint. destruct (Pos.to_uint p); try reflexivity.
      contradiction.
    + exact Hn.
    + unfold Z.of_uint. rewrite DecimalPos.Unsigned.of_to. reflexivity.
Qed.

(** A minus sign, a plus sign, a blank or a zero before [str m]. *)
Lemma float_sign_str (sign : ascii) (m : Z) :
  0 <= m ->
  (sign = "-"%char -> float (String sign (str m)) = Ok (- inject_Z m)%Q)
  /\ (sign = "+"%char \/ sign = " "%char \/ sign = "0"%char ->
      float (String sign (str m)) = Ok (inject_Z m)).
Proof.
  intros H. destruct (str_nonneg m H) as (d & -> & Hd & <-).
  split.
  - intros ->. apply (float_signed "-" d Hd). left. reflexivity.
  - intros [-> | [-> | ->]].
    + apply (float_signed "+" d Hd). right. reflexivity.
    + apply (float_blank " " d Hd). reflexivity.
    + apply float_leading_zero.
Qed.

(** A letter at the head of a text is outside the grammar. *)
Lemma float_letter (c : ascii) (r : string) :
  is_letter c = true -> float (String c r) = Raise ValueError.
Proof.
  intros H. destruct (letter_char c H) as (Hs & Hm & Hp & Hd & Hu).
  unfold float. cbn [lstrip]. rewrite Hs.
  assert (E : rstrip (String c r) = String c (rstrip r)).
  { cbn [rstrip]. destruct (rstrip r); [rewrite Hs|]; reflexivity. }
  rewrite E, Hm, Hp. unfold number. cbn [split_point]. rewrite Hd.
  destruct (split_point (rstrip r)) as [a [fp|]]; cbn [is_empty andb];
    unfold digitpart; cbn [NilEmpty.uint_of_string]; rewrite Hu; reflexivity.
Qed.

(** ** Bits, and floats as rationals *)

Lemma flag_testbit (flags i : Z) : 0 <= i -> flag flags i = Z.testbit flags i.
Proof.
  intros Hi. unfold flag, pow.
  destruct (Z.testbit flags i) eqn:Hb.
  - destruct (Z.eqb_spec (Z.land flags (2 ^ i)) 0) as [E|]; [|reflexivity].
    assert (Z.testbit (Z.land flags (2 ^ i)) i = true) as Hc
      by (rewrite Z.land_spec, Hb, Z.pow2_bits_true by lia; reflexivity).
    rewrite E, Z.bits_0 in Hc. discriminate.
  - replace (Z.land flags (2 ^ i)) with 0; [reflexivity|].
    symmetry. apply Z.bits_inj'. intros n Hn.
    rewrite Z.land_spec, Z.bits_0, Z.pow2_bits_eqb by lia.
    destruct (Z.eqb_spec i n) as [<-|]; [rewrite Hb|]; 
      [reflexivity | apply andb_false_r].
Qed.

Lemma Qltb_true (x y : Q) : Qltb x y = true <-> (x < y)%Q.
Proof.
  unfold Qltb. rewrite negb_true_iff, <- not_true_iff_false, Qle_bool_iff.
  split; [apply Qnot_le_lt | apply Qlt_not_le].
Qed.

(** A decoded voltage is positive exactly when the raw field is. *)
Lemma Qltb_thousandth (d : Z) : Qltb 0 (inject_Z d / 1000) = (0 <? d).
Proof.
  destruct (Z.ltb_spec 0 d) as [H|H].
  - apply Qltb_true. unfold Qlt. simpl. lia.
  - apply not_true_iff_false. rewrite Qltb_true. unfold Qlt. simpl. lia.
Qed.

Lemma round_half_even_Z (x : Q) (k : Z) :
  x == inject_Z k -> round_half_even x = k.
Proof.
  intros H. unfold round_half_even.
  rewrite (Qfloor_comp _ _ H), Qfloor_Z.
  assert (E : (x - inject_Z k ?= 1 # 2)%Q = Lt).
  { rewrite <- Qlt_alt, H. unfold Qlt. simpl. lia. }
  rewrite E. reflexivity.
Qed.

(** Rounding to three decimals leaves a number of thousandths as it is. *)
Lemma round_thousandths (x : Q) (k : Z) :
  x == inject_Z k / 1000 -> round x 3 == inject_Z k / 1000.
Proof.
  intros H. unfold round.
  rewrite (round_half_even_Z _ k); [reflexivity|].
  rewrite H. unfold Qeq. simpl. lia.
Qed.

(** The sum of the eight decoded voltages is the sum of the raw fields,
    in thousandths. *)
Lemma sum_decoded_voltages (line : string) :
  sum (decoded_voltages line)
  == inject_Z (sigma 8 (fun k => field_value line (8 + k * 2) 2)) / 1000.
Proof.
  unfold decoded_voltages, sum, decoded_voltage.
  change (range SBMS_CELL_COUNT_MAX) with [0; 1; 2; 3; 4; 5; 6; 7].
  cbn [map fold_left sigma Z.of_nat Pos.of_succ_nat Pos.succ].
  rewrite !inject_Z_plus. change (inject_Z 0) with 0%Q. field.
Qed.

(** ** The object after a call *)

(** What lines 118-133 have set stays, whether line 134 raises or not. *)
Lemma after_upto_voltage (line : string) (self : Battery) :
  len line = LENGTH_FIXED -> cells_ready self ->
  cells (after line self) = cells (before_current line self)
  /\ cell_count (after line self) = cell_count (before_current line self)
  /\ soc (after line self) = soc (before_current line self)
  /\ voltage (after line self) = voltage (before_current line self).
Proof.
  intros Hlen Hready. unfold after.
  pose proof (process_frame line self Hlen Hready) as H.
  destruct (float (current_text line)) as [amps|e].
  - destruct H as (s' & -> & R). cbn [snd]. destruct R. auto.
  - rewrite H. auto.
Qed.

(** A call that returns [True] has left a reading. *)
Lemma returned_reading (line : string) (self : Battery) :
  len line = LENGTH_FIXED -> cells_ready self ->
  outcome line self = Ok true ->
  exists amps,
    float (current_text line) = Ok amps
    /\ reading line amps (before_current line self) (after line self).
Proof.
  intros Hlen Hready. unfold outcome, after.
  pose proof (process_frame line self Hlen Hready) as H.
  destruct (float (current_text line)) as [amps|e].
  - destruct H as (s' & -> & R). intros _. exists amps. split; [reflexivity | exact R].
  - rewrite H. discriminate.
Qed.

(** A call returns [True] when [float] accepts the text of the current. *)
Lemma parsed_reading (line : string) (self : Battery) (amps : Q) :
  len line = LENGTH_FIXED -> cells_ready self ->
  float (current_text line) = Ok amps ->
  outcome line self = Ok true
  /\ reading line amps (before_current line self) (after line self).
Proof.
  intros Hlen Hready Hf. unfold outcome, after.
  pose proof (process_frame line self Hlen Hready) as H.
  rewrite Hf in H. destruct H as (s' & -> & R). split; [reflexivity | exact R].
Qed.

Lemma wrong_length (line : string) (self : Battery) :
  len line <> LENGTH_FIXED -> process_status_data line self = (Ok false, self).
Proof.
  intros H. unfold process_status_data.
  destruct (Z.eqb_spec (len line) LENGTH_FIXED); [contradiction | reflexivity].
Qed.

(** The cell slots are there from the first frame of 59 characters on. *)
Lemma cells_ready_init : cells_ready Battery_init.
Proof. intros H. discriminate H. Qed.

Lemma cells_ready_after (line : string) (self : Battery) :
  cells_ready self -> cells_ready (after line self).
Proof.
  intros Hready. destruct (Z.eq_dec (len line) LENGTH_FIXED) as [Hlen|Hlen].
  - intros _. destruct (after_upto_voltage line self Hlen Hready) as (-> & _).
    unfold before_current. cbn [cells set_voltage set_soc set_cells].
    rewrite length_stored. apply length_learned_cells. exact Hready.
  - unfold after. rewrite wrong_length by exact Hlen. exact Hready.
Qed.

Lemma cells_ready_after_frames (lines : list string) (self : Battery) :
  cells_ready self -> cells_ready (after_frames lines self).
Proof.
  revert self. induction lines as [|line lines IH]; intros self H.
  - exact H.
  - apply IH, cells_ready_after, H.
Qed.

Lemma cell_count_kept_frames (lines : list string) (self : Battery) :
  truthy (cell_count self) = true ->
  cell_count (after_frames lines self) = cell_count self.
Proof.
  revert self. induction lines as [|line lines IH]; intros self H.
  - reflexivity.
  - cbn [after_frames fold_left]. fold (after_frames lines (after line self)).
    rewrite IH; rewrite cell_count_kept by exact H; [reflexivity | exact H].
Qed.

(** ** The statements of the specification *)

(** C2.  On an input whose length is not 59, [process_status_data]
    returns [False] and leaves every attribute of the object as it was:
    the object after the call is the object before it. *)
Theorem wrong_length_rejected (line : string) (self : Battery) :
  len line <> LENGTH_FIXED ->
  process_status_data line self = (Ok false, self).
Proof. apply wrong_length. Qed.

Lemma wrong_length_rejected_witness :
  len frame_cut = 58
  /\ process_status_data frame_cut (after frame_eight_cells Battery_init)
     = (Ok false, after frame_eight_cells Battery_init).
Proof.
  split; [reflexivity|].
  apply (wrong_length_rejected frame_cut). vm_compute. discriminate.
Defined.

(** C3.  On a frame that the call accepts, [cell_imbalance] is 2 when
    the cell-voltage delta exceeds 100, 1 when it exceeds 50 and 0
    otherwise, where the delta is the maximum minus the minimum of the
    recorded cell voltages, in volts, and 100 and 50 are the thresholds
    that the source gives in millivolts.  So four frames, accepted by a
    new object, whose cell voltages spread over 50, 51, 100 and 101 mV
    all leave [cell_imbalance] at level 0. *)
Theorem cell_imbalance_compares_volts :
  (forall line self,
      len line = LENGTH_FIXED -> cells_ready self ->
      outcome line self = Ok true ->
      let s := after line self in
      let delta_V := (get_max_cell_voltage s - get_min_cell_voltage s)%Q in
      protection s Protection.cell_imbalance
      = Some (if Qltb (inject_Z BATTERY_CELL_BALANCE_ALARM) delta_V then 2
              else if Qltb (inject_Z BATTERY_CELL_BALANCE_WARN) delta_V then 1
              else 0))
  /\ Forall (fun '(line, delta_mV) =>
               let s := after line Battery_init in
               outcome line Battery_init = Ok true
               /\ get_max_cell_voltage s - get_min_cell_voltage s
                  == inject_Z delta_mV / 1000
               /\ protection s Protection.cell_imbalance = Some 0)
            [ (frame_delta_50, 50); (frame_delta_51, 51);
              (frame_delta_100, 100); (frame_delta_101, 101) ].
Proof.
  split.
  - intros line self Hlen Hready Hret s delta_V.
    destruct (returned_reading line self Hlen Hready Hret) as (amps & _ & R).
    fold s in R. rewrite (rd_cell_imbalance _ _ _ _ R).
    unfold delta_V, get_max_cell_voltage, get_min_cell_voltage.
    rewrite (rd_cells _ _ _ _ R). reflexivity.
  - repeat constructor.
Qed.

(** C4, as the specification states it, fails: a first frame of 59
    characters with no positive cell field sets the cell count to 0, and
    a later frame with one positive field sets it again, to 1. *)
Lemma cell_count_learned_twice :
  len frame_no_cell = 59 /\ len frame_one_cell = 59
  /\ outcome frame_no_cell Battery_init = Ok true
  /\ cell_count (after frame_no_cell Battery_init) = Some 0
  /\ outcome frame_one_cell (after frame_no_cell Battery_init) = Ok true
  /\ cell_count (after frame_one_cell (after frame_no_cell Battery_init)) = Some 1
  /\ cell_count (after frame_one_cell (after frame_no_cell Battery_init))
     <> cell_count (after frame_no_cell Battery_init).
Proof. repeat split. discriminate. Qed.

(** The number of cell fields of a frame that decode to a positive
    voltage. *)
Lemma positive_count (line : string) :
  length (filter (fun v => Qltb 0 v) (decoded_voltages line))
  = length (filter (fun k => 0 <? field_value line (8 + k * 2) 2)
              (range SBMS_CELL_COUNT_MAX)).
Proof.
  unfold decoded_voltages.
  induction (range SBMS_CELL_COUNT_MAX) as [|k ks IH]; [reflexivity|].
  cbn [map filter]. unfold decoded_voltage at 1. rewrite Qltb_thousandth.
  destruct (0 <? field_value line (8 + k * 2) 2); cbn [length]; congruence.
Qed.

(** C4, amended.  A frame of 59 characters that reaches an object whose
    cell count is unset or zero sets the cell count to the number of the
    eight cell fields that decode to a value above 0; and once the cell
    count is not zero, no later input changes it, whatever its cell
    fields hold and whether the call returns or raises. *)
Theorem cell_count_learned_until_nonzero
        (line : string) (self : Battery) (later : list string) :
  len line = LENGTH_FIXED ->
  truthy (cell_count self) = false ->
  let n := Z.of_nat (length (filter (fun k => 0 <? field_value line (8 + k * 2) 2)
                               (range SBMS_CELL_COUNT_MAX))) in
  cell_count (after line self) = Some n
  /\ (n <> 0 -> cell_count (after_frames later (after line self)) = Some n).
Proof.
  intros Hlen Hfalse n.
  assert (Hready : cells_ready self) by (intros H; congruence).
  assert (Hn : cell_count (after line self) = Some n).
  { destruct (after_upto_voltage line self Hlen Hready) as (_ & -> & _).
    unfold before_current, learned. rewrite Hfalse.
    cbn [cell_count set_voltage set_soc set_cells set_cell_count].
    unfold n. rewrite positive_count. reflexivity. }
  split; [exact Hn|].
  intros Hnz. rewrite cell_count_kept_frames; [exact Hn|].
  rewrite Hn. unfold truthy.
  destruct (Z.eqb_spec n 0); [contradiction | reflexivity].
Qed.

Lemma cell_count_learned_until_nonzero_witness :
  len frame_three_cells = 59
  /\ cell_count (after frame_three_cells Battery_init) = Some 3
  /\ cell_count (after_frames [frame_noise_in_slot_2; frame_eight_cells]
                   (after frame_three_cells Battery_init)) = Some 3.
Proof.
  split; [reflexivity|].
  destruct (cell_count_learned_until_nonzero frame_three_cells Battery_init
              [frame_noise_in_slot_2; frame_eight_cells] eq_refl eq_refl)
    as [H1 H2].
  split; [exact H1 | apply H2; vm_compute; discriminate].
Defined.

(** C5, as the specification states it, fails: after a frame with eight
    cells at 3000 mV, a frame whose slot 0 decodes to 0 leaves eight
    recorded voltages, of sum 24 V, and a pack voltage of 21 V. *)
Lemma pack_voltage_not_recorded_sum :
  let s := after frame_slot_0_silent (after frame_eight_cells Battery_init) in
  outcome frame_eight_cells Battery_init = Ok true
  /\ outcome frame_slot_0_silent (after frame_eight_cells Battery_init) = Ok true
  /\ length (recorded_voltages (cells s)) = 8%nat
  /\ round (sum (recorded_voltages (cells s))) 3 == 24
  /\ (exists v, voltage s = Some v /\ v == 21
                /\ ~ v == round (sum (recorded_voltages (cells s))) 3).
Proof.
  vm_compute. repeat split. eexists. repeat split. discriminate.
Qed.

Lemma nth_error_stored (cs : list Cell.t) (vs : list Q) (k : nat) (c : Cell.t) (v : Q) :
  nth_error cs k = Some c -> nth_error vs k = Some v ->
  nth_error (stored cs vs) k = Some (if Qltb 0 v then Cell.set_voltage v c else c).
Proof.
  revert vs k. induction cs as [|c0 cs IH]; intros [|v0 vs] [|k] Hc Hv;
    try discriminate; cbn [stored nth_error] in *.
  - injection Hc as <-. injection Hv as <-. reflexivity.
  - apply IH; assumption.
Qed.

Lemma nth_error_decoded_voltages (line : string) (k : nat) :
  (k < 8)%nat ->
  nth_error (decoded_voltages line) k = Some (decoded_voltage line (Z.of_nat k)).
Proof.
  intros H. unfold decoded_voltages, range.
  rewrite nth_error_map, nth_error_map, nth_error_seq.
  change (Z.to_nat SBMS_CELL_COUNT_MAX) with 8%nat.
  destruct (Nat.ltb_spec k 8); [reflexivity | lia].
Qed.

(** C5, amended.  A frame of 59 characters sets the pack voltage to the
    sum of the eight voltages that this frame decodes to, rounded to 3
    decimals, which is the sum of its eight raw cell fields in
    thousandths: a slot whose field is 0 adds nothing, whatever voltage
    is recorded for it.  Once the cell count is learned, the voltage
    recorded for a slot is overwritten when the field of the slot decodes
    to a value above 0, and kept otherwise. *)
Theorem pack_voltage_is_frame_sum (line : string) (self : Battery) :
  len line = LENGTH_FIXED -> cells_ready self ->
  (exists v,
      voltage (after line self) = Some v
      /\ v = round (sum (decoded_voltages line)) 3
      /\ v == inject_Z (sigma 8 (fun k => field_value line (8 + k * 2) 2)) / 1000)
  /\ (truthy (cell_count self) = true ->
      forall (k : nat) (c : Cell.t),
        (k < 8)%nat -> nth_error (cells self) k = Some c ->
        nth_error (cells (after line self)) k
        = Some (if 0 <? field_value line (8 + Z.of_nat k * 2) 2
                then Cell.set_voltage (decoded_voltage line (Z.of_nat k)) c
                else c)).
Proof.
  intros Hlen Hready.
  destruct (after_upto_voltage line self Hlen Hready) as (Hc & _ & _ & Hv).
  split.
  - exists (round (sum (decoded_voltages line)) 3).
    split; [rewrite Hv; reflexivity|]. split; [reflexivity|].
    apply round_thousandths, sum_decoded_voltages.
  - intros Ht k c Hk Hnth. rewrite Hc. unfold before_current, learned.
    rewrite Ht. cbn [cells set_voltage set_soc set_cells].
    rewrite (nth_error_stored _ _ k c (decoded_voltage line (Z.of_nat k)) Hnth)
      by (apply nth_error_decoded_voltages; exact Hk).
    unfold decoded_voltage at 1. rewrite Qltb_thousandth. reflexivity.
Qed.

Lemma pack_voltage_is_frame_sum_witness :
  let s0 := after frame_eight_cells Battery_init in
  let s := after frame_slot_0_silent s0 in
  (exists v, voltage s = Some v /\ v == 21)
  /\ option_map Cell.voltage (nth_error (cells s) 0) = Some (Some 3.000%Q)
  /\ nth_error (cells s) 0 = nth_error (cells s0) 0.
Proof.
  intros s0 s.
  assert (Hready : cells_ready s0) by (intros _; vm_compute; reflexivity).
  destruct (pack_voltage_is_frame_sum frame_slot_0_silent s0 eq_refl Hready)
    as ((v & Hv & _ & Hsum) & Hslot).
  split.
  - exists v. split; [exact Hv|]. rewrite Hsum. vm_compute. reflexivity.
  - split; [vm_compute; reflexivity|].
    assert (E : nth_error (cells s0) 0 = Some (Cell.mk (Some 3.000%Q) false))
      by (vm_compute; reflexivity).
    fold s in Hslot.
    rewrite (Hslot ltac:(vm_compute; reflexivity) 0%nat _ ltac:(lia) E), E.
    vm_compute. reflexivity.
Defined.

(** C6.  On a frame of 59 characters, the current is the number that
    [float] reads in the character at offset 28 followed by the decimal
    digits of the field of 3 characters at offset 29, divided by 1000:
    when [float] accepts that text the call returns [True] with this
    current.  With a magnitude [m >= 0], the sign ["-"] gives [-m / 1000],
    and a ["+"], a blank or a ["0"] in the place of the sign gives
    [m / 1000]. *)
Theorem current_from_sign_and_magnitude (line : string) (self : Battery) :
  len line = LENGTH_FIXED -> cells_ready self ->
  let sign := char_at line 28 in
  let m := field_value line 29 3 in
  (forall amps,
      float (String sign (str m)) = Ok amps ->
      outcome line self = Ok true
      /\ current (after line self) = Some (amps / 1000)%Q)
  /\ (0 <= m -> sign = "-"%char ->
      outcome line self = Ok true
      /\ current (after line self) = Some (- inject_Z m / 1000)%Q)
  /\ (0 <= m -> sign = "+"%char \/ sign = " "%char \/ sign = "0"%char ->
      outcome line self = Ok true
      /\ current (after line self) = Some (inject_Z m / 1000)%Q).
Proof.
  intros Hlen Hready sign m.
  assert (Hgen : forall amps,
             float (String sign (str m)) = Ok amps ->
             outcome line self = Ok true
             /\ current (after line self) = Some (amps / 1000)%Q).
  { intros amps Hf.
    destruct (parsed_reading line self amps Hlen Hready Hf) as [Ho R].
    split; [exact Ho | apply (rd_current _ _ _ _ R)]. }
  split; [exact Hgen|]. split.
  - intros Hm Hs. apply Hgen. apply (float_sign_str sign m Hm); exact Hs.
  - intros Hm Hs. apply Hgen. apply (float_sign_str sign m Hm); exact Hs.
Qed.

Lemma current_from_sign_and_magnitude_witness :
  (exists q, current (after frame_minus Battery_init) = Some q /\ q == - (1 # 2))
  /\ (exists q, current (after frame_eight_cells Battery_init) = Some q /\ q == 1 # 2)
  /\ (exists q, current (after frame_zero_sign Battery_init) = Some q /\ q == 1 # 2).
Proof.
  assert (Hm : 0 <= 500) by lia.
  destruct (current_from_sign_and_magnitude frame_minus Battery_init
              eq_refl cells_ready_init) as (_ & Hminus & _).
  destruct (current_from_sign_and_magnitude frame_eight_cells Battery_init
              eq_refl cells_ready_init) as (_ & _ & Hplus).
  destruct (current_from_sign_and_magnitude frame_zero_sign Battery_init
              eq_refl cells_ready_init) as (_ & _ & Hzero).
  split; [|split].
  - eexists. split; [apply (Hminus Hm); reflexivity | vm_compute; reflexivity].
  - eexists. split; [apply (Hplus Hm); left; reflexivity | vm_compute; reflexivity].
  - eexists. split;
      [apply (Hzero Hm); right; right; reflexivity | vm_compute; reflexivity].
Defined.

(** A digit from 1 to 9 in the place of the sign is read as one more
    digit of the magnitude: ["7"] before 500 gives 7.5 A. *)
Remark digit_sign_joins_magnitude :
  outcome frame_seven_sign Battery_init = Ok true
  /\ exists q, current (after frame_seven_sign Battery_init) = Some q
               /\ q == 15 # 2.
Proof. vm_compute. split; [reflexivity | eexists; split; reflexivity]. Qed.

(** C7.  On a frame of 59 characters that the call accepts, with [flags]
    the decoded field of 3 characters at offset 56: the status dict maps
    the [i]-th name of [SBMS_STATUS_CODES] (OV, OVLK, UV, UVLK, IOT, COC,
    DOC, DSC, CELF, OPEN, LVC, ECCF, CFET, EOC, DFET) to bit [i] of
    [flags]; [charge_fet] is bit 12 and [discharge_fet] is bit 14; and
    when [flags] is [2^12 + 2^14] both are true and every other flag is
    false. *)
Theorem status_flags_are_bits (line : string) (self : Battery) :
  len line = LENGTH_FIXED -> cells_ready self ->
  outcome line self = Ok true ->
  let flags := field_value line 56 3 in
  (forall (i : nat) (name : string),
      nth_error SBMS_STATUS_CODES i = Some name ->
      getkey (status_dict flags) name = Ok (Z.testbit flags (Z.of_nat i)))
  /\ charge_fet (after line self) = Some (Z.testbit flags 12)
  /\ discharge_fet (after line self) = Some (Z.testbit flags 14)
  /\ (flags = 2 ^ 12 + 2 ^ 14 ->
      charge_fet (after line self) = Some true
      /\ discharge_fet (after line self) = Some true
      /\ forall (i : nat) (name : string),
          nth_error SBMS_STATUS_CODES i = Some name ->
          i <> 12%nat -> i <> 14%nat ->
          getkey (status_dict flags) name = Ok false).
Proof.
  intros Hlen Hready Hret flags.
  destruct (returned_reading line self Hlen Hready Hret) as (amps & _ & R).
  assert (Hbits : forall (i : nat) (name : string),
             nth_error SBMS_STATUS_CODES i = Some name ->
             getkey (status_dict flags) name = Ok (Z.testbit flags (Z.of_nat i))).
  { intros i name Hi. rewrite (getkey_status flags i name Hi).
    rewrite flag_testbit by lia. reflexivity. }
  assert (Hc : charge_fet (after line self) = Some (Z.testbit flags 12))
    by (rewrite (rd_charge_fet _ _ _ _ R), flag_testbit by lia; reflexivity).
  assert (Hd : discharge_fet (after line self) = Some (Z.testbit flags 14))
    by (rewrite (rd_discharge_fet _ _ _ _ R), flag_testbit by lia; reflexivity).
  split; [exact Hbits|]. split; [exact Hc|]. split; [exact Hd|].
  intros Hflags. split; [|split].
  - rewrite Hc, Hflags. reflexivity.
  - rewrite Hd, Hflags. reflexivity.
  - intros i name Hi H12 H14. rewrite (Hbits i name Hi), Hflags.
    do 15 (destruct i as [|i]; [try contradiction; reflexivity|]).
    destruct i; discriminate Hi.
Qed.

Lemma status_flags_are_bits_witness :
  field_value frame_eight_cells 56 3 = 2 ^ 12 + 2 ^ 14
  /\ charge_fet (after frame_eight_cells Battery_init) = Some true
  /\ discharge_fet (after frame_eight_cells Battery_init) = Some true
  /\ status_dict (field_value frame_eight_cells 56 3)
     = [ ("OV", false); ("OVLK", false); ("UV", false); ("UVLK", false);
         ("IOT", false); ("COC", false); ("DOC", false); ("DSC", false);
         ("CELF", false); ("OPEN", false); ("LVC", false); ("ECCF", false);
         ("CFET", true); ("EOC", false); ("DFET", true) ]%string.
Proof.
  assert (Hf : field_value frame_eight_cells 56 3 = 2 ^ 12 + 2 ^ 14)
    by (vm_compute; reflexivity).
  destruct (status_flags_are_bits frame_eight_cells Battery_init
              eq_refl cells_ready_init ltac:(vm_compute; reflexivity))
    as (_ & _ & _ & Hon).
  destruct (Hon Hf) as (Hc & Hd & _).
  split; [exact Hf|]. split; [exact Hc|]. split; [exact Hd|].
  vm_compute. reflexivity.
Defined.

(** C8.  On a frame of 59 characters that the call accepts, [temp1] is
    the field of 2 characters at offset 24, minus 450, divided by 10, and
    [temp2] is the same on the field at offset 26; [temp_low_charge] and
    [temp_low_discharge] are both 2 when [min(temp1, temp2) <= 40], the
    constant [BATTERY_TEMP_HIGH_ALARM], and both 0 otherwise. *)
Theorem temperatures_and_low_alarm (line : string) (self : Battery) :
  len line = LENGTH_FIXED -> cells_ready self ->
  outcome line self = Ok true ->
  let t1 := (inject_Z (field_value line 24 2 - 450) / 10)%Q in
  let t2 := (inject_Z (field_value line 26 2 - 450) / 10)%Q in
  let s' := after line self in
  temp1 s' = Some t1
  /\ temp2 s' = Some t2
  /\ get_min_temp s' = Qmin t1 t2
  /\ ((Qmin t1 t2 <= inject_Z BATTERY_TEMP_HIGH_ALARM)%Q ->
      protection s' Protection.temp_low_charge = Some 2
      /\ protection s' Protection.temp_low_discharge = Some 2)
  /\ (~ (Qmin t1 t2 <= inject_Z BATTERY_TEMP_HIGH_ALARM)%Q ->
      protection s' Protection.temp_low_charge = Some 0
      /\ protection s' Protection.temp_low_discharge = Some 0).
Proof.
  intros Hlen Hready Hret t1 t2 s'.
  destruct (returned_reading line self Hlen Hready Hret) as (amps & _ & R).
  fold s' in R.
  pose proof (rd_temp1 _ _ _ _ R) as H1.
  pose proof (rd_temp2 _ _ _ _ R) as H2.
  pose proof (rd_temp_low_charge _ _ _ _ R) as Hc.
  pose proof (rd_temp_low_discharge _ _ _ _ R) as Hd.
  fold t1 in H1. fold t2 in H2.
  assert (Hmin : get_min_temp s' = Qmin t1 t2)
    by (unfold get_min_temp; rewrite H1, H2; reflexivity).
  rewrite Hmin in Hc, Hd.
  change (inject_Z BATTERY_TEMP_HIGH_ALARM) with 40%Q.
  split; [exact H1|]. split; [exact H2|]. split; [exact Hmin|]. split.
  - intros Hle. apply Qle_bool_iff in Hle. rewrite Hc, Hd, Hle.
    split; reflexivity.
  - intros Hgt. rewrite Hc, Hd.
    destruct (Qle_bool (Qmin t1 t2) 40) eqn:E;
      [apply Qle_bool_iff in E; contradiction | split; reflexivity].
Qed.

Lemma temperatures_and_low_alarm_witness :
  (let s := after frame_eight_cells Battery_init in
   (exists a b, temp1 s = Some a /\ a == 25 /\ temp2 s = Some b /\ b == 20)
   /\ protection s Protection.temp_low_charge = Some 2
   /\ protection s Protection.temp_low_discharge = Some 2)
  /\ (let s := after frame_forty Battery_init in
      (exists a b, temp1 s = Some a /\ a == 40 /\ temp2 s = Some b /\ b == 50)
      /\ protection s Protection.temp_low_charge = Some 2
      /\ protection s Protection.temp_low_discharge = Some 2)
  /\ (let s := after frame_hot Battery_init in
      (exists a b, temp1 s = Some a /\ a == 45 /\ temp2 s = Some b /\ b == 50)
      /\ protection s Protection.temp_low_charge = Some 0
      /\ protection s Protection.temp_low_discharge = Some 0).
Proof.
  destruct (temperatures_and_low_alarm frame_eight_cells Battery_init
              eq_refl cells_ready_init ltac:(vm_compute; reflexivity))
    as (A1 & A2 & _ & Alow & _).
  destruct (temperatures_and_low_alarm frame_forty Battery_init
              eq_refl cells_ready_init ltac:(vm_compute; reflexivity))
    as (B1 & B2 & _ & Blow & _).
  destruct (temperatures_and_low_alarm frame_hot Battery_init
              eq_refl cells_ready_init ltac:(vm_compute; reflexivity))
    as (C1 & C2 & _ & _ & Chigh).
  split; [|split].
  - split.
    + eexists. eexists. split; [exact A1|]. split; [vm_compute; reflexivity|].
      split; [exact A2 | vm_compute; reflexivity].
    + apply Alow. vm_compute. discriminate.
  - split.
    + eexists. eexists. split; [exact B1|]. split; [vm_compute; reflexivity|].
      split; [exact B2 | vm_compute; reflexivity].
    + apply Blow. vm_compute. discriminate.
  - split.
    + eexists. eexists. split; [exact C1|]. split; [vm_compute; reflexivity|].
      split; [exact C2 | vm_compute; reflexivity].
    + apply Chigh. vm_compute. intros H. apply H. reflexivity.
Defined.

(** C10.  The call is not total on frames of 59 printable characters:
    there is one on which it raises [ValueError]; on every frame of 59
    characters with a letter at offset 28, [float] rejects the text of
    the current and the call raises [ValueError] at line 134, after the
    cell slots, the cell count, the state of charge and the pack voltage
    have been written; and the call returns [False] only on a length
    other than 59. *)
Theorem letter_sign_raises :
  (exists line,
      len line = LENGTH_FIXED /\ all_printable line = true
      /\ outcome line Battery_init = Raise ValueError)
  /\ (forall line self,
         len line = LENGTH_FIXED -> cells_ready self ->
         is_letter (char_at line 28) = true ->
         process_status_data line self
         = (Raise ValueError, before_current line self))
  /\ (forall line self,
         cells_ready self ->
         (outcome line self = Ok false <-> len line <> LENGTH_FIXED)).
Proof.
  split; [|split].
  - exists frame_letter_sign. vm_compute. repeat split.
  - intros line self Hlen Hready Hletter.
    pose proof (process_frame line self Hlen Hready) as H.
    unfold current_text in H. rewrite (float_letter _ _ Hletter) in H. exact H.
  - intros line self Hready. split.
    + intros Hfalse Hlen. unfold outcome in Hfalse.
      pose proof (process_frame line self Hlen Hready) as H.
      destruct (float (current_text line)) as [amps|e].
      * destruct H as (s' & E & _). rewrite E in Hfalse. discriminate Hfalse.
      * rewrite H in Hfalse. discriminate Hfalse.
    + intros Hlen. unfold outcome. rewrite wrong_length by exact Hlen. reflexivity.
Qed.

(** The frame of C10 on a new object: the call raises, and leaves the
    cell count, the state of charge and the pack voltage written, with no
    current. *)
Remark letter_sign_partial_reading :
  let s := after frame_letter_sign Battery_init in
  outcome frame_letter_sign Battery_init = Raise ValueError
  /\ cell_count s = Some 8 /\ soc s = Some 80
  /\ (exists v, voltage s = Some v /\ v == 24)
  /\ current s = None.
Proof.
  vm_compute. repeat split. eexists. split; reflexivity.
Qed.

(** ** The decoder outside and at the edge of a frame *)

Lemma getitem_raises_IndexError (s : string) (k : Z) (e : exn) :
  getitem s k = Raise e -> e = IndexError.
Proof.
  unfold getitem, index.
  destruct (_ && _).
  - destruct (String.get _ s); [discriminate | intros [= <-]; reflexivity].
  - intros [= <-]. reflexivity.
Qed.

Lemma getitem_below (s : string) (k : Z) :
  k < - len s -> getitem s k = Raise IndexError.
Proof.
  intros H. unfold getitem, index, len in *.
  destruct (Z.ltb_spec k 0); [|lia].
  destruct (Z.leb_spec 0 (k + Z.of_nat (String.length s))); [lia|].
  reflexivity.
Qed.

(** From [- len s] to [len s - 1], [s[k]] is the character at the wrapped
    place. *)
Lemma getitem_wrapped (s : string) (k : Z) :
  - len s <= k < len s ->
  exists c, getitem s k = Ok c /\ ord c = code_at s (wrapped s k).
Proof.
  intros H. unfold wrapped.
  destruct (Z.ltb_spec k 0) as [Hk|Hk].
  - destruct (getitem_inside s (k + len s)) as (c & Hc & Ho); [lia|].
    exists c. split; [|exact Ho].
    rewrite <- Hc. unfold getitem, index, len in *.
    destruct (Z.ltb_spec k 0); [|lia].
    destruct (Z.ltb_spec (k + Z.of_nat (String.length s)) 0); [lia|].
    reflexivity.
  - apply getitem_inside. lia.
Qed.

(** The loop raises [IndexError] as soon as one of its indices is out of
    range. *)
Lemma dcmp_loop_raises (comp : string) (base : Z) (xs : list Z) :
  forall acc,
    (exists i e, In i xs /\ getitem comp (base - i) = Raise e) ->
    for_in xs acc (fun i decomp =>
      c <- getitem comp (base - i) ;;
      Ok (decomp + (ord c - 35) * pow 91 i))
    = Raise IndexError.
Proof.
  induction xs as [|x xs IH]; intros acc (i & e & Hin & Hi).
  - destruct Hin.
  - cbn [for_in]. destruct (getitem comp (base - x)) as [c|e'] eqn:E.
    + cbn [Py.bind]. apply IH. destruct Hin as [->|Hin].
      * rewrite Hi in E. discriminate E.
      * exists i, e. split; assumption.
    + apply getitem_raises_IndexError in E. subst e'. reflexivity.
Qed.

Lemma dcmp_loop_wrapped (comp : string) (pos size : Z) (m : nat) :
  - len comp <= pos -> pos + size <= len comp -> Z.of_nat m <= size ->
  for_in (range (Z.of_nat m)) 0 (fun i decomp =>
    c <- getitem comp ((pos + size - 1) - i) ;;
    Ok (decomp + (ord c - 35) * pow 91 i))
  = Ok (sigma m (fun i =>
          (code_at comp (wrapped comp (pos + size - 1 - i)) - 35) * 91 ^ i)).
Proof.
  intros Hpos Hlen. induction m as [|m IH]; intros Hm.
  - reflexivity.
  - rewrite range_succ, for_in_app, IH by lia. simpl.
    destruct (getitem_wrapped comp (pos + size - 1 - Z.of_nat m)) as (c & Hc & Ho);
      [lia|].
    rewrite Hc. simpl. unfold pow. rewrite Ho. reflexivity.
Qed.

Lemma dcmp_wrapped (comp : string) (pos size : Z) :
  - len comp <= pos -> pos + size <= len comp ->
  dcmp comp pos size
  = Ok (sigma (Z.to_nat size) (fun i =>
          (code_at comp (wrapped comp (pos + size - 1 - i)) - 35) * 91 ^ i)).
Proof.
  intros Hpos Hlen. unfold dcmp.
  destruct (Z.le_gt_cases size 0) as [Hs|Hs].
  - rewrite range_nonpos by assumption.
    replace (Z.to_nat size) with O by lia. reflexivity.
  - rewrite <- (Z2Nat.id size) at 1 by lia.
    apply dcmp_loop_wrapped; lia.
Qed.

Lemma dcmp_out_of_range (comp : string) (pos size : Z) :
  0 < size -> pos < - len comp \/ len comp < pos + size ->
  dcmp comp pos size = Raise IndexError.
Proof.
  intros Hs Hout. unfold dcmp. apply dcmp_loop_raises.
  assert (Hlen : 0 <= len comp) by (unfold len; lia).
  destruct (Z_lt_le_dec (pos + size - 1) (len comp)) as [Hin|Hpast].
  - (* the last index read, [pos], is below the frame *)
    exists (size - 1), IndexError. split; [apply in_range; lia|].
    apply getitem_below. lia.
  - (* the first index read is past the end *)
    exists 0, IndexError. split; [apply in_range; lia|].
    apply getitem_outside. lia.
Qed.

(** X1.  With a size above 0, [dcmp] raises exactly when the slice of
    [size] characters at [pos] does not lie between the indices [-len]
    and [len] of the string: it raises when [pos < -len] or
    [pos + size > len], it returns otherwise, and the only exception it
    raises is [IndexError]. *)
Theorem dcmp_raises_iff_out_of_range (comp : string) (pos size : Z) :
  0 < size ->
  (dcmp comp pos size = Raise IndexError
   <-> pos < - len comp \/ len comp < pos + size)
  /\ (forall e, dcmp comp pos size = Raise e -> e = IndexError).
Proof.
  intros Hs.
  destruct (Z_lt_le_dec pos (- len comp)) as [H1|H1].
  - rewrite dcmp_out_of_range by (try left; assumption).
    split; [split; auto | intros e [= <-]; reflexivity].
  - destruct (Z_lt_le_dec (len comp) (pos + size)) as [H2|H2].
    + rewrite dcmp_out_of_range by (try right; assumption).
      split; [split; auto | intros e [= <-]; reflexivity].
    + rewrite dcmp_wrapped by assumption.
      split; [split; [discriminate | lia] | discriminate].
Qed.

Lemma dcmp_raises_iff_out_of_range_witness :
  dcmp "ab#$%z" 4 3 = Raise IndexError
  /\ dcmp "ab#$%z" (-7) 2 = Raise IndexError
  /\ dcmp "ab#$%z" (-6) 2 <> Raise IndexError.
Proof.
  destruct (dcmp_raises_iff_out_of_range "ab#$%z" 4 3 ltac:(lia)) as [[_ A] _].
  destruct (dcmp_raises_iff_out_of_range "ab#$%z" (-7) 2 ltac:(lia)) as [[_ B] _].
  destruct (dcmp_raises_iff_out_of_range "ab#$%z" (-6) 2 ltac:(lia)) as [[C _] _].
  split; [apply A; right; vm_compute; reflexivity|].
  split; [apply B; left; vm_compute; reflexivity|].
  intros H. apply C in H. vm_compute in H. destruct H as [H|H]; discriminate H.
Defined.

(** X2.  A negative position counts from the end of the string, as a
    Python index does: when the slice lies between [-len] and [len],
    [dcmp] returns the weighted sum of the characters at the wrapped
    places; so a slice that ends at or before index 0 is the slice [len]
    places further, and a slice across index 0 takes its leading digits at
    the end of the string and its trailing digits at the start. *)
Theorem dcmp_negative_position_wraps (comp : string) (pos size : Z) :
  - len comp <= pos -> pos + size <= len comp ->
  dcmp comp pos size
  = Ok (sigma (Z.to_nat size) (fun i =>
          (code_at comp (wrapped comp (pos + size - 1 - i)) - 35) * 91 ^ i))
  /\ (pos + size <= 0 -> dcmp comp pos size = dcmp comp (pos + len comp) size).
Proof.
  intros Hpos Hlen. split; [apply dcmp_wrapped; assumption|].
  intros Hneg.
  assert (H0 : 0 <= len comp) by (unfold len; lia).
  rewrite !dcmp_wrapped by lia. f_equal.
  apply sigma_ext. intros i Hi. unfold wrapped.
  destruct (Z.ltb_spec (pos + size - 1 - i) 0); [|lia].
  destruct (Z.ltb_spec (pos + len comp + size - 1 - i) 0); [lia|].
  do 3 f_equal. lia.
Qed.

Lemma dcmp_negative_position_wraps_witness :
  dcmp "ab#$%z" (-4) 3 = Ok (0 * 91 ^ 2 + 1 * 91 + 2)
  /\ dcmp "ab#$%z" (-4) 3 = dcmp "ab#$%z" 2 3
  /\ dcmp "$ab#" (-1) 2 = Ok (0 * 91 + 1).
Proof.
  destruct (dcmp_negative_position_wraps "ab#$%z" (-4) 3)
    as [A B]; [vm_compute; discriminate | vm_compute; discriminate |].
  destruct (dcmp_negative_position_wraps "$ab#" (-1) 2)
    as [C _]; [vm_compute; discriminate | vm_compute; discriminate |].
  split; [rewrite A; reflexivity|].
  split; [apply B; lia | rewrite C; reflexivity].
Defined.

(** ** Fields side by side, and the range of a field *)

Lemma sigma_scale (n : nat) (f : Z -> Z) (c : Z) :
  sigma n (fun i => f i * c) = sigma n f * c.
Proof. induction n as [|n IH]; simpl; [reflexivity | rewrite IH; lia]. Qed.

Lemma sigma_app (a b : nat) (f : Z -> Z) :
  sigma (b + a) f = sigma b f + sigma a (fun j => f (j + Z.of_nat b)).
Proof.
  induction a as [|a IH].
  - rewrite Nat.add_0_r. simpl. lia.
  - rewrite Nat.add_succ_r. cbn [sigma]. rewrite IH.
    replace (Z.of_nat (b + a)) with (Z.of_nat a + Z.of_nat b) by lia. lia.
Qed.

(** A field of [a + b] characters is the field of its first [a]
    characters, shifted by [b] digits, plus the field of its last [b]. *)
Lemma field_value_app (comp : string) (pos a b : Z) :
  0 <= a -> 0 <= b ->
  field_value comp pos (a + b)
  = field_value comp pos a * 91 ^ b + field_value comp (pos + a) b.
Proof.
  intros Ha Hb. unfold field_value.
  replace (Z.to_nat (a + b)) with (Z.to_nat b + Z.to_nat a)%nat by lia.
  rewrite sigma_app, <- sigma_scale, Z.add_comm. f_equal.
  - apply sigma_ext. intros j Hj. rewrite Z2Nat.id by lia.
    replace (pos + (a + b) - 1 - (j + b)) with (pos + a - 1 - j) by lia.
    rewrite Z.pow_add_r by lia. ring.
  - apply sigma_ext. intros i Hi.
    replace (pos + (a + b) - 1 - i) with (pos + a + b - 1 - i) by lia.
    reflexivity.
Qed.

(** X3.  Inside the string, the field of [a + b] characters at [pos] is
    made of the field of [a] characters at [pos] and of the field of [b]
    characters after it: its value is the first value times [91^b] plus
    the second. *)
Theorem dcmp_adjacent_fields (comp : string) (pos a b : Z) :
  0 <= pos -> 0 <= a -> 0 <= b -> pos + a + b <= len comp ->
  exists hi lo,
    dcmp comp pos a = Ok hi
    /\ dcmp comp (pos + a) b = Ok lo
    /\ dcmp comp pos (a + b) = Ok (hi * 91 ^ b + lo).
Proof.
  intros Hpos Ha Hb Hlen.
  exists (field_value comp pos a), (field_value comp (pos + a) b).
  rewrite !dcmp_value by lia. rewrite field_value_app by assumption.
  repeat split.
Qed.

Lemma dcmp_adjacent_fields_witness :
  dcmp "%N(" 0 1 = Ok 2 /\ dcmp "%N(" 1 2 = Ok 3918
  /\ dcmp "%N(" 0 3 = Ok (2 * 91 ^ 2 + 3918).
Proof.
  destruct (dcmp_adjacent_fields "%N(" 0 1 2) as (hi & lo & A & B & C);
    [lia | lia | lia | vm_compute; discriminate |].
  split; [reflexivity|]. split; [reflexivity|].
  change (dcmp "%N(" 0 3) with (dcmp "%N(" 0 (1 + 2)). rewrite C.
  vm_compute in A, B. injection A as <-. injection B as <-.
  reflexivity.
Defined.

Lemma ord_range (c : ascii) : 0 <= ord c <= 255.
Proof.
  unfold ord. pose proof (N_ascii_bounded c). lia.
Qed.

Lemma code_at_range (s : string) (k : Z) : 0 <= code_at s k <= 255.
Proof.
  unfold code_at. destruct (String.get _ s); [apply ord_range | lia].
Qed.

(** A sum of [n] digits between [lo] and [hi], in base 91. *)
Lemma sigma_digits_range (n : nat) (d : Z -> Z) (lo hi : Z) :
  (forall i, 0 <= i < Z.of_nat n -> lo <= d i <= hi) ->
  lo * (91 ^ Z.of_nat n - 1) <= 90 * sigma n (fun i => d i * 91 ^ i)
  <= hi * (91 ^ Z.of_nat n - 1).
Proof.
  induction n as [|n IH]; intros H.
  - simpl. lia.
  - cbn [sigma]. rewrite Nat2Z.inj_succ, Z.pow_succ_r by lia.
    specialize (IH ltac:(intros i Hi; apply H; lia)).
    specialize (H (Z.of_nat n) ltac:(lia)).
    assert (Hp : 0 < 91 ^ Z.of_nat n) by (apply Z.pow_pos_nonneg; lia).
    nia.
Qed.

(** Whatever its characters, a field of [size] characters lies in the
    range of [size] digits from -35 to 220. *)
Lemma field_value_bounds (comp : string) (pos size : Z) :
  0 <= size ->
  -35 * (91 ^ size - 1) <= 90 * field_value comp pos size
  <= 220 * (91 ^ size - 1).
Proof.
  intros Hsize. unfold field_value, digit.
  rewrite <- (Z2Nat.id size) at 1 4 by assumption.
  apply sigma_digits_range with (d := fun i => code_at comp (pos + size - 1 - i) - 35).
  intros i Hi. pose proof (code_at_range comp (pos + size - 1 - i)). lia.
Qed.

Lemma field_value_two (comp : string) (pos : Z) :
  -3220 <= field_value comp pos 2 <= 20240.
Proof.
  pose proof (field_value_bounds comp pos 2 ltac:(lia)) as H.
  change (91 ^ 2) with 8281 in H. lia.
Qed.




(** ** Distinct fields decode to distinct values *)

Lemma in_alphabet_range (c : ascii) :
  in_alphabet c = true -> 35 <= ord c <= 125.
Proof. unfold in_alphabet. lia. Qed.

Lemma ord_inj (c d : ascii) : ord c = ord d -> c = d.
Proof.
  unfold ord. intros H. apply N2Z.inj in H.
  rewrite <- (ascii_N_embedding c), <- (ascii_N_embedding d), H. reflexivity.
Qed.

Lemma whole_field_alphabet (s : string) :
  all_in_alphabet s = true ->
  0 <= field_value s 0 (Z.of_nat (String.length s))
  < 91 ^ Z.of_nat (String.length s).
Proof.
  induction s as [|c s IH]; intros H.
  - cbn. lia.
  - cbn [all_in_alphabet] in H. apply andb_prop in H. destruct H as [Hc Hs].
    apply in_alphabet_range in Hc. specialize (IH Hs).
    cbn [String.length]. rewrite field_value_cons.
    rewrite Nat2Z.inj_succ, Z.pow_succ_r by lia. nia.
Qed.

Lemma whole_field_inj (s : string) :
  forall t,
    all_in_alphabet s = true -> all_in_alphabet t = true ->
    String.length s = String.length t ->
    field_value s 0 (Z.of_nat (String.length s))
    = field_value t 0 (Z.of_nat (String.length t)) ->
    s = t.
Proof.
  induction s as [|c s IH]; intros [|d t] Hs Ht Hlen Hv;
    try discriminate Hlen; [reflexivity|].
  cbn [all_in_alphabet] in Hs, Ht.
  apply andb_prop in Hs. destruct Hs as [Hc Hs].
  apply andb_prop in Ht. destruct Ht as [Hd Ht].
  apply in_alphabet_range in Hc. apply in_alphabet_range in Hd.
  cbn [String.length] in Hlen, Hv. injection Hlen as Hlen.
  rewrite !field_value_cons in Hv.
  pose proof (whole_field_alphabet s Hs) as Bs.
  pose proof (whole_field_alphabet t Ht) as Bt.
  rewrite <- Hlen in Hv, Bt.
  assert (Hcd : ord c = ord d) by nia.
  rewrite Hcd in Hv.
  rewrite (ord_inj c d Hcd). f_equal.
  apply IH; try assumption. rewrite <- Hlen. lia.
Qed.

(** X5.  On strings of the alphabet, of codes 35 to 125, and of the same
    length, [dcmp] over the whole string is injective: two strings that
    decode to the same value are the same string. *)
Theorem dcmp_injective_on_alphabet (s t : string) :
  all_in_alphabet s = true -> all_in_alphabet t = true ->
  String.length s = String.length t ->
  dcmp s 0 (len s) = dcmp t 0 (len t) ->
  s = t.
Proof.
  intros Hs Ht Hlen Hv.
  rewrite !dcmp_value in Hv by lia.
  injection Hv as Hv. apply whole_field_inj; assumption.
Qed.

Lemma dcmp_injective_on_alphabet_witness :
  dcmp "C{" 0 2 = Ok 3000 /\ dcmp "DR" 0 2 = Ok 3050
  /\ dcmp "C{" 0 (len "C{") <> dcmp "DR" 0 (len "DR").
Proof.
  split; [reflexivity|]. split; [reflexivity|].
  intros H.
  pose proof (dcmp_injective_on_alphabet "C{" "DR" eq_refl eq_refl eq_refl H) as E.
  discriminate E.
Defined.

(** Outside the alphabet the decoder is not injective: ["~"], of code 126,
    stands for a digit 91, and ["#~"] decodes to 91 as ["$#"] does. *)
Remark dcmp_not_injective_past_alphabet :
  dcmp "#~" 0 2 = Ok 91 /\ dcmp "$#" 0 2 = Ok 91.
Proof. split; reflexivity. Qed.

(** ** What a call can raise, and what a raising call leaves *)

Lemma float_raises_ValueError (s : string) (e : exn) :
  float s = Raise e -> e = ValueError.
Proof.
  unfold float.
  destruct (rstrip (lstrip s)) as [|c r].
  - destruct (number _); [discriminate | intros [= <-]; reflexivity].
  - destruct (Ascii.eqb c "-"); [|destruct (Ascii.eqb c "+")];
      (destruct (number _); [discriminate | intros [= <-]; reflexivity]).
Qed.

(** A call that raises was given a frame of 59 characters whose text of
    the current [float] rejects, and it has stopped before line 134. *)
Lemma raised_at_float (line : string) (self : Battery) (e : exn) :
  cells_ready self -> outcome line self = Raise e ->
  len line = LENGTH_FIXED
  /\ float (current_text line) = Raise ValueError
  /\ e = ValueError
  /\ after line self = before_current line self.
Proof.
  intros Hready Hraise. unfold outcome, after in *.
  destruct (Z.eq_dec (len line) LENGTH_FIXED) as [Hlen|Hlen].
  - pose proof (process_frame line self Hlen Hready) as H.
    destruct (float (current_text line)) as [amps|e'] eqn:Ef.
    + destruct H as (s' & E & _). rewrite E in Hraise. discriminate Hraise.
    + rewrite H in *. cbn [fst snd] in *. injection Hraise as <-.
      pose proof (float_raises_ValueError _ _ Ef) as ->. auto.
  - rewrite wrong_length in Hraise by exact Hlen. discriminate Hraise.
Qed.

(** X6.  On an object that has its cell slots, [process_status_data]
    raises nothing but the [ValueError] of [float] at line 134: a call
    that raises was given a frame of 59 characters in which the character
    at offset 28, followed by the digits of the field at offset 29, is no
    number.  It raises no [IndexError] and no [KeyError]. *)
Theorem only_float_raises (line : string) (self : Battery) (e : exn) :
  cells_ready self -> outcome line self = Raise e ->
  e = ValueError
  /\ len line = LENGTH_FIXED
  /\ float (String (char_at line 28) (str (field_value line 29 3)))
     = Raise ValueError.
Proof.
  intros Hready Hraise.
  destruct (raised_at_float line self e Hready Hraise) as (Hlen & Hf & He & _).
  auto.
Qed.

Lemma only_float_raises_witness :
  outcome frame_letter_sign Battery_init = Raise ValueError
  /\ char_at frame_letter_sign 28 = "A"%char
  /\ float (String "A" (str 500)) = Raise ValueError.
Proof.
  assert (H : outcome frame_letter_sign Battery_init = Raise ValueError)
    by (vm_compute; reflexivity).
  destruct (only_float_raises frame_letter_sign Battery_init ValueError
              cells_ready_init H) as (_ & _ & Hf).
  split; [exact H|]. split; [reflexivity | exact Hf].
Defined.

(** X7.  A call that raises leaves the object half written: the state of
    charge and the pack voltage are those of the frame that raised, while
    the current, the temperatures, the two FET states, every protection
    level and the hardware version are left as they were before the
    call. *)
Theorem raising_frame_half_written (line : string) (self : Battery) (e : exn) :
  cells_ready self -> outcome line self = Raise e ->
  let s' := after line self in
  soc s' = Some (field_value line 6 2)
  /\ voltage s' = Some (round (sum (decoded_voltages line)) 3)
  /\ current s' = current self
  /\ temp1 s' = temp1 self /\ temp2 s' = temp2 self
  /\ charge_fet s' = charge_fet self /\ discharge_fet s' = discharge_fet self
  /\ protection s' = protection self
  /\ hardware_version s' = hardware_version self.
Proof.
  intros Hready Hraise s'.
  destruct (raised_at_float line self e Hready Hraise) as (_ & _ & _ & E).
  unfold s'. rewrite E. unfold before_current, learned.
  destruct (truthy (cell_count self)); repeat split.
Qed.

Lemma raising_frame_half_written_witness :
  let s := after frame_minus Battery_init in
  let s' := after frame_letter_sign s in
  outcome frame_letter_sign s = Raise ValueError
  /\ soc s' = Some 80
  /\ (exists i, current s' = Some i /\ i == - (1 # 2))
  /\ hardware_version s' = Some "SBMS0 8 cells"%string.
Proof.
  intros s s'.
  assert (Hready : cells_ready s) by (intros _; vm_compute; reflexivity).
  assert (H : outcome frame_letter_sign s = Raise ValueError)
    by (vm_compute; reflexivity).
  destruct (raising_frame_half_written frame_letter_sign s ValueError Hready H)
    as (Hsoc & _ & Hcur & _ & _ & _ & _ & _ & Hhw).
  split; [exact H|]. split; [exact Hsoc|]. split.
  - eexists. split; [exact Hcur | vm_compute; reflexivity].
  - unfold s'. rewrite Hhw. vm_compute. reflexivity.
Defined.

(** ** What an accepted frame sets, whatever came before *)

Lemma get_max_temp_reading (line : string) (amps : Q) (s s' : Battery) :
  reading line amps s s' ->
  get_max_temp s' = Qmax (inject_Z (field_value line 24 2 - 450) / 10)
                         (inject_Z (field_value line 26 2 - 450) / 10).
Proof.
  intros R. unfold get_max_temp.
  rewrite (rd_temp1 _ _ _ _ R), (rd_temp2 _ _ _ _ R). reflexivity.
Qed.

Lemma get_min_temp_reading (line : string) (amps : Q) (s s' : Battery) :
  reading line amps s s' ->
  get_min_temp s' = Qmin (inject_Z (field_value line 24 2 - 450) / 10)
                         (inject_Z (field_value line 26 2 - 450) / 10).
Proof.
  intros R. unfold get_min_temp.
  rewrite (rd_temp1 _ _ _ _ R), (rd_temp2 _ _ _ _ R). reflexivity.
Qed.

Lemma soc_before_current (line : string) (self : Battery) :
  soc (before_current line self) = Some (field_value line 6 2).
Proof. reflexivity. Qed.

Lemma voltage_before_current (line : string) (self : Battery) :
  voltage (before_current line self) = Some (round (sum (decoded_voltages line)) 3).
Proof. reflexivity. Qed.

(** X8.  The last frame wins: whether a call returns [True], returns
    [False] or raises depends on the input only, and after a call that
    returns [True] the state of charge, the pack voltage, the current, the
    temperatures, the two FET states and every protection level but
    [cell_imbalance] depend on the frame only, not on the object it
    reached. *)
Theorem reading_independent_of_history (line : string) (self1 self2 : Battery) :
  cells_ready self1 -> cells_ready self2 ->
  outcome line self1 = outcome line self2
  /\ (outcome line self1 = Ok true ->
      let a := after line self1 in
      let b := after line self2 in
      soc a = soc b /\ voltage a = voltage b /\ current a = current b
      /\ temp1 a = temp1 b /\ temp2 a = temp2 b
      /\ charge_fet a = charge_fet b /\ discharge_fet a = discharge_fet b
      /\ forall f, f <> Protection.cell_imbalance ->
                   protection a f = protection b f).
Proof.
  intros H1 H2. unfold outcome, after.
  destruct (Z.eq_dec (len line) LENGTH_FIXED) as [Hlen|Hlen].
  2: { rewrite !wrong_length by exact Hlen. split; [reflexivity | discriminate]. }
  pose proof (process_frame line self1 Hlen H1) as P1.
  pose proof (process_frame line self2 Hlen H2) as P2.
  destruct (float (current_text line)) as [amps|e].
  2: { rewrite P1, P2. split; [reflexivity | discriminate]. }
  destruct P1 as (a & -> & Ra). destruct P2 as (b & -> & Rb).
  cbn [fst snd]. split; [reflexivity|]. intros _.
  pose proof (get_max_temp_reading _ _ _ _ Ra) as Ma.
  pose proof (get_max_temp_reading _ _ _ _ Rb) as Mb.
  pose proof (get_min_temp_reading _ _ _ _ Ra) as Na.
  pose proof (get_min_temp_reading _ _ _ _ Rb) as Nb.
  split; [rewrite (rd_soc _ _ _ _ Ra), (rd_soc _ _ _ _ Rb); reflexivity|].
  split; [rewrite (rd_voltage _ _ _ _ Ra), (rd_voltage _ _ _ _ Rb); reflexivity|].
  split; [rewrite (rd_current _ _ _ _ Ra), (rd_current _ _ _ _ Rb); reflexivity|].
  split; [rewrite (rd_temp1 _ _ _ _ Ra), (rd_temp1 _ _ _ _ Rb); reflexivity|].
  split; [rewrite (rd_temp2 _ _ _ _ Ra), (rd_temp2 _ _ _ _ Rb); reflexivity|].
  split; [rewrite (rd_charge_fet _ _ _ _ Ra), (rd_charge_fet _ _ _ _ Rb); reflexivity|].
  split; [rewrite (rd_discharge_fet _ _ _ _ Ra), (rd_discharge_fet _ _ _ _ Rb);
          reflexivity|].
  intros f Hf. destruct f.
  - rewrite (rd_voltage_high _ _ _ _ Ra), (rd_voltage_high _ _ _ _ Rb). reflexivity.
  - rewrite (rd_voltage_low _ _ _ _ Ra), (rd_voltage_low _ _ _ _ Rb). reflexivity.
  - rewrite (rd_voltage_cell_low _ _ _ _ Ra), (rd_voltage_cell_low _ _ _ _ Rb).
    reflexivity.
  - rewrite (rd_soc_low _ _ _ _ Ra), (rd_soc_low _ _ _ _ Rb). reflexivity.
  - rewrite (rd_current_over _ _ _ _ Ra), (rd_current_over _ _ _ _ Rb). reflexivity.
  - rewrite (rd_current_under _ _ _ _ Ra), (rd_current_under _ _ _ _ Rb). reflexivity.
  - contradiction.
  - rewrite (rd_internal_failure _ _ _ _ Ra), (rd_internal_failure _ _ _ _ Rb).
    reflexivity.
  - rewrite (rd_temp_high_charge _ _ _ _ Ra), (rd_temp_high_charge _ _ _ _ Rb),
      Ma, Mb. reflexivity.
  - rewrite (rd_temp_low_charge _ _ _ _ Ra), (rd_temp_low_charge _ _ _ _ Rb),
      Na, Nb. reflexivity.
  - rewrite (rd_temp_high_discharge _ _ _ _ Ra), (rd_temp_high_discharge _ _ _ _ Rb),
      Ma, Mb. reflexivity.
  - rewrite (rd_temp_low_discharge _ _ _ _ Ra), (rd_temp_low_discharge _ _ _ _ Rb),
      Na, Nb. reflexivity.
Qed.

Lemma reading_independent_of_history_witness :
  let a := after frame_minus Battery_init in
  let b := after frame_minus (after frame_hot Battery_init) in
  outcome frame_minus Battery_init = outcome frame_minus (after frame_hot Battery_init)
  /\ current a = current b /\ temp1 a = temp1 b
  /\ protection a Protection.temp_low_charge
     = protection b Protection.temp_low_charge.
Proof.
  intros a b.
  assert (Hready : cells_ready (after frame_hot Battery_init))
    by (intros _; vm_compute; reflexivity).
  destruct (reading_independent_of_history frame_minus Battery_init
              (after frame_hot Battery_init) cells_ready_init Hready)
    as [Ho Hsame].
  destruct (Hsame ltac:(vm_compute; reflexivity))
    as (_ & _ & Hc & Ht & _ & _ & _ & Hp).
  split; [exact Ho|]. split; [exact Hc|]. split; [exact Ht|].
  apply Hp. discriminate.
Defined.

(** ** The protection levels of an accepted frame *)



(** X10.  On a frame that the call accepts, [temp_high_charge] and
    [temp_high_discharge] are the same level: 2 when the flag IOT (bit 4)
    is set, or when the current is above 0 and the higher of the two
    temperatures is at least [BATTERY_TEMP_HIGH_ALARM] (40), and 0
    otherwise.  So without IOT the discharge level too needs a current
    above 0, and stays 0 while the pack discharges. *)
Theorem temp_high_levels (line : string) (self : Battery) :
  len line = LENGTH_FIXED -> cells_ready self ->
  outcome line self = Ok true ->
  let flags := field_value line 56 3 in
  let t1 := (inject_Z (field_value line 24 2 - 450) / 10)%Q in
  let t2 := (inject_Z (field_value line 26 2 - 450) / 10)%Q in
  let s' := after line self in
  exists i,
    current s' = Some i
    /\ protection s' Protection.temp_high_discharge
       = protection s' Protection.temp_high_charge
    /\ (Z.testbit flags 4 = true
        \/ (0 < i /\ inject_Z BATTERY_TEMP_HIGH_ALARM <= Qmax t1 t2)%Q ->
        protection s' Protection.temp_high_charge = Some 2)
    /\ (Z.testbit flags 4 = false ->
        ~ (0 < i /\ inject_Z BATTERY_TEMP_HIGH_ALARM <= Qmax t1 t2)%Q ->
        protection s' Protection.temp_high_charge = Some 0).
Proof.
  intros Hlen Hready Hret flags t1 t2 s'.
  destruct (returned_reading line self Hlen Hready Hret) as (amps & _ & R).
  fold s' in R.
  pose proof (rd_temp_high_charge _ _ _ _ R) as Hc.
  pose proof (rd_temp_high_discharge _ _ _ _ R) as Hd.
  rewrite (get_max_temp_reading _ _ _ _ R) in Hc, Hd.
  fold t1 t2 flags in Hc, Hd. rewrite flag_testbit in Hc, Hd by lia.
  change (inject_Z BATTERY_TEMP_HIGH_ALARM) with 40%Q.
  exists (amps / 1000)%Q.
  split; [apply (rd_current _ _ _ _ R)|].
  split; [rewrite Hc, Hd; reflexivity|].
  rewrite Hc. split.
  - intros [Hbit | [Hi Ht]].
    + rewrite Hbit. reflexivity.
    + apply Qltb_true in Hi. apply Qle_bool_iff in Ht.
      rewrite Hi, Ht, orb_true_r. reflexivity.
  - intros Hbit Hnot. rewrite Hbit. cbn [orb].
    destruct (Qltb 0 (amps / 1000)) eqn:Ei; [|reflexivity].
    destruct (Qle_bool 40 (Qmax t1 t2)) eqn:Et; [|reflexivity].
    exfalso. apply Hnot. split; [apply Qltb_true | apply Qle_bool_iff]; assumption.
Qed.

Lemma temp_high_levels_witness :
  protection (after frame_max_40 Battery_init) Protection.temp_high_charge = Some 2
  /\ protection (after frame_max_40 Battery_init) Protection.temp_high_discharge
     = Some 2
  /\ protection (after frame_max_39_9 Battery_init) Protection.temp_high_charge
     = Some 0
  /\ protection (after frame_hot_discharging Battery_init)
       Protection.temp_high_discharge = Some 0
  /\ protection (after frame_over_temperature Battery_init)
       Protection.temp_high_discharge = Some 2.
Proof.
  destruct (temp_high_levels frame_max_40 Battery_init eq_refl cells_ready_init
              ltac:(vm_compute; reflexivity)) as (i & Hi & Ad & Ahot & _).
  vm_compute in Hi. injection Hi as <-.
  assert (A : protection (after frame_max_40 Battery_init)
                Protection.temp_high_charge = Some 2).
  { apply Ahot. right. vm_compute. split; [reflexivity | discriminate]. }
  destruct (temp_high_levels frame_max_39_9 Battery_init eq_refl cells_ready_init
              ltac:(vm_compute; reflexivity)) as (j & Hj & _ & _ & Bcold).
  vm_compute in Hj. injection Hj as <-.
  destruct (temp_high_levels frame_hot_discharging Battery_init eq_refl
              cells_ready_init ltac:(vm_compute; reflexivity))
    as (k & Hk & Cd & _ & Ccold).
  vm_compute in Hk. injection Hk as <-.
  destruct (temp_high_levels frame_over_temperature Battery_init eq_refl
              cells_ready_init ltac:(vm_compute; reflexivity))
    as (l & _ & Dd & Dhot & _).
  split; [exact A|]. split; [rewrite Ad; exact A|]. split.
  - apply Bcold; [vm_compute; reflexivity|].
    vm_compute. intros [_ H]. apply H. reflexivity.
  - split.
    + rewrite Cd. apply Ccold; [vm_compute; reflexivity|].
      vm_compute. intros [H _]. discriminate H.
    + rewrite Dd. apply Dhot. left. vm_compute. reflexivity.
Defined.

(** X11.  On a frame that the call accepts, with [flags] the decoded
    field of 3 characters at offset 56, six protection levels are 2 or 0
    with a status bit, never 1: [voltage_high] with OVLK (bit 1),
    [voltage_low] with UVLK (bit 3), [voltage_cell_low] with LVC (bit 10),
    [current_over] with COC (bit 5), [current_under] with DOC (bit 6), and
    [internal_failure] with ECCF (bit 11) or OPEN (bit 9). *)
Theorem protections_from_status_bits (line : string) (self : Battery) :
  len line = LENGTH_FIXED -> cells_ready self ->
  outcome line self = Ok true ->
  let flags := field_value line 56 3 in
  let level (b : bool) : option Z := Some (if b then 2 else 0) in
  let s' := after line self in
  protection s' Protection.voltage_high = level (Z.testbit flags 1)
  /\ protection s' Protection.voltage_low = level (Z.testbit flags 3)
  /\ protection s' Protection.voltage_cell_low = level (Z.testbit flags 10)
  /\ protection s' Protection.current_over = level (Z.testbit flags 5)
  /\ protection s' Protection.current_under = level (Z.testbit flags 6)
  /\ protection s' Protection.internal_failure
     = level (Z.testbit flags 11 || Z.testbit flags 9).
Proof.
  intros Hlen Hready Hret flags level s'.
  destruct (returned_reading line self Hlen Hready Hret) as (amps & _ & R).
  fold s' in R.
  rewrite (rd_voltage_high _ _ _ _ R), (rd_voltage_low _ _ _ _ R),
    (rd_voltage_cell_low _ _ _ _ R), (rd_current_over _ _ _ _ R),
    (rd_current_under _ _ _ _ R), (rd_internal_failure _ _ _ _ R).
  fold flags. rewrite !flag_testbit by lia.
  repeat split.
Qed.

Lemma protections_from_status_bits_witness :
  let s' := after frame_alarms Battery_init in
  field_value frame_alarms 56 3 = 2 ^ 1 + 2 ^ 6 + 2 ^ 9
  /\ protection s' Protection.voltage_high = Some 2
  /\ protection s' Protection.voltage_low = Some 0
  /\ protection s' Protection.voltage_cell_low = Some 0
  /\ protection s' Protection.current_over = Some 0
  /\ protection s' Protection.current_under = Some 2
  /\ protection s' Protection.internal_failure = Some 2.
Proof.
  intros s'.
  destruct (protections_from_status_bits frame_alarms Battery_init eq_refl
              cells_ready_init ltac:(vm_compute; reflexivity))
    as (A & B & C & D & E & F).
  split; [vm_compute; reflexivity|].
  split; [exact A|]. split; [exact B|]. split; [exact C|].
  split; [exact D|]. split; [exact E | exact F].
Defined.

(** ** The cell slots along a session *)

Lemma recorded_cons (c : Cell.t) (cs : list Cell.t) :
  recorded_voltages (c :: cs)
  = match Cell.voltage c with Some v => [v] | None => [] end
    ++ recorded_voltages cs.
Proof. reflexivity. Qed.

Lemma recorded_stored_Forall (P : Q -> Prop) (cs : list Cell.t) :
  forall vs,
    Forall P (recorded_voltages cs) ->
    Forall (fun v => Qltb 0 v = true -> P v) vs ->
    Forall P (recorded_voltages (stored cs vs)).
Proof.
  induction cs as [|c cs IH]; intros [|v vs] Hc Hv; cbn [stored]; try exact Hc.
  rewrite recorded_cons in *. apply Forall_app in Hc. destruct Hc as [Hc1 Hc2].
  inversion Hv as [|? ? Hv1 Hv2]; subst.
  apply Forall_app. split; [|apply IH; assumption].
  destruct (Qltb 0 v); [|exact Hc1].
  cbn. constructor; [apply Hv1; reflexivity | constructor].
Qed.

Lemma length_recorded_stored (cs : list Cell.t) :
  forall vs,
    (length (recorded_voltages cs) <= length (recorded_voltages (stored cs vs)))%nat.
Proof.
  induction cs as [|c cs IH]; intros [|v vs]; cbn [stored]; try lia.
  rewrite !recorded_cons, !length_app. specialize (IH vs).
  destruct (Qltb 0 v); [|lia].
  cbn [Cell.set_voltage Cell.voltage length]. destruct (Cell.voltage c); cbn [length]; lia.
Qed.

Lemma recorded_stored_new (cs : list Cell.t) :
  forall vs,
    Forall (fun c => Cell.voltage c = None) cs -> length cs = length vs ->
    recorded_voltages (stored cs vs) = filter (fun v => Qltb 0 v) vs.
Proof.
  induction cs as [|c cs IH]; intros [|v vs] Hc Hlen;
    try discriminate Hlen; [reflexivity|].
  inversion Hc as [|? ? Hc1 Hc2]; subst. injection Hlen as Hlen.
  cbn [stored filter]. rewrite recorded_cons, (IH vs Hc2 Hlen).
  destruct (Qltb 0 v); [reflexivity|]. rewrite Hc1. reflexivity.
Qed.

(** A positive decoded voltage is at most 20.24 V. *)
Lemma decoded_voltages_range (line : string) :
  Forall (fun v => Qltb 0 v = true -> (0 < v /\ v <= 20240 # 1000)%Q)
         (decoded_voltages line).
Proof.
  unfold decoded_voltages. apply Forall_forall. intros v Hv.
  apply in_map_iff in Hv. destruct Hv as (k & <- & _).
  intros Hpos. apply Qltb_true in Hpos. split; [exact Hpos|].
  unfold decoded_voltage.
  pose proof (field_value_two line (8 + k * 2)) as H.
  clear Hpos. revert H. generalize (field_value line (8 + k * 2) 2). intros d H.
  unfold Qle. simpl. lia.
Qed.

Lemma cells_well_formed_ready (self : Battery) :
  cells_well_formed self -> cells_ready self.
Proof.
  intros [_ H] Ht. destruct (cell_count self) as [n|]; [|discriminate Ht].
  apply H.
Qed.

Lemma cells_well_formed_init : cells_well_formed Battery_init.
Proof. split; [constructor | reflexivity]. Qed.

Lemma cells_well_formed_after (line : string) (self : Battery) :
  cells_well_formed self -> cells_well_formed (after line self).
Proof.
  intros Hwf. pose proof (cells_well_formed_ready self Hwf) as Hready.
  destruct (Z.eq_dec (len line) LENGTH_FIXED) as [Hlen|Hlen].
  2: { unfold after. rewrite wrong_length by exact Hlen. exact Hwf. }
  destruct (after_upto_voltage line self Hlen Hready) as (Hc & Hn & _).
  unfold cells_well_formed. rewrite Hc, Hn.
  unfold before_current, learned.
  pose proof (decoded_voltages_range line) as Hrange.
  destruct Hwf as [Hrec Hcount].
  destruct (truthy (cell_count self)) eqn:Ht;
    cbn [cells cell_count set_voltage set_soc set_cells set_cell_count].
  - split; [apply recorded_stored_Forall; assumption|].
    destruct (cell_count self) as [n|]; [|discriminate Ht].
    destruct Hcount as (H08 & H8 & Hle).
    split; [exact H08|]. split; [rewrite length_stored; exact H8|].
    pose proof (length_recorded_stored (cells self) (decoded_voltages line)). lia.
  - split; [apply recorded_stored_Forall; [constructor | assumption]|].
    rewrite length_stored.
    rewrite recorded_stored_new by (repeat constructor).
    pose proof (filter_length_le (fun v => Qltb 0 v) (decoded_voltages line)) as Hf.
    rewrite length_decoded_voltages in Hf.
    split; [lia|]. split; [reflexivity | lia].
Qed.

Lemma cells_well_formed_after_frames (lines : list string) :
  forall self,
    cells_well_formed self -> cells_well_formed (after_frames lines self).
Proof.
  induction lines as [|line lines IH]; intros self H.
  - exact H.
  - apply IH, cells_well_formed_after, H.
Qed.


(** The count can stay below the number of recorded voltages: three cells
    in the first frame, eight in the second. *)
Remark cell_count_below_recorded :
  let s := after_frames [frame_three_cells; frame_eight_cells] Battery_init in
  cell_count s = Some 3 /\ length (recorded_voltages (cells s)) = 8%nat.
Proof. vm_compute. split; reflexivity. Qed.

(** ** The cell imbalance along a session *)









(** ** The serial callbacks *)

(** [_uart_rx] returns what [process_status_data] returns on the stripped
    buffer, and leaves the object that it leaves. *)
Lemma uart_rx_process (buf : option string) (self : Battery) :
  _uart_rx buf self
  = process_status_data (match buf with
                         | Some b => strip b
                         | None => EmptyString
                         end) self.
Proof.
  unfold _uart_rx, bindm.
  destruct (process_status_data _ self) as [[[|]|e] s]; reflexivity.
Qed.

Lemma alphabet_not_blank (c : ascii) :
  in_alphabet c = true -> str_isspace c = false.
Proof.
  destruct c as [[] [] [] [] [] [] [] []]; intros H;
    try discriminate H; reflexivity.
Qed.

Lemma str_lstrip_blank (pre s : string) :
  all_blank pre = true -> str_lstrip (pre ++ s) = str_lstrip s.
Proof.
  induction pre as [|c pre IH]; intros H; [reflexivity|].
  cbn [all_blank] in H. apply andb_prop in H. destruct H as [Hc Hpre].
  cbn [append str_lstrip]. rewrite Hc. apply IH, Hpre.
Qed.

Lemma str_lstrip_all_blank (post : string) :
  all_blank post = true -> str_lstrip post = EmptyString.
Proof.
  induction post as [|c post IH]; intros H; [reflexivity|].
  cbn [all_blank] in H. apply andb_prop in H. destruct H as [Hc Hpost].
  cbn [str_lstrip]. rewrite Hc. apply IH, Hpost.
Qed.

Lemma str_rstrip_all_blank (post : string) :
  all_blank post = true -> str_rstrip post = EmptyString.
Proof.
  induction post as [|c post IH]; intros H; [reflexivity|].
  cbn [all_blank] in H. apply andb_prop in H. destruct H as [Hc Hpost].
  cbn [str_rstrip]. rewrite (IH Hpost), Hc. reflexivity.
Qed.

Lemma str_rstrip_blank (s post : string) :
  all_blank post = true -> str_rstrip (s ++ post) = str_rstrip s.
Proof.
  intros H. induction s as [|c s IH].
  - cbn [append]. rewrite str_rstrip_all_blank by exact H. reflexivity.
  - cbn [append str_rstrip]. rewrite IH. reflexivity.
Qed.

Lemma str_lstrip_alphabet (s : string) :
  all_in_alphabet s = true -> str_lstrip s = s.
Proof.
  destruct s as [|c s]; intros H; [reflexivity|].
  cbn [all_in_alphabet] in H. apply andb_prop in H. destruct H as [Hc _].
  cbn [str_lstrip]. rewrite (alphabet_not_blank c Hc). reflexivity.
Qed.

Lemma str_rstrip_alphabet (s : string) :
  all_in_alphabet s = true -> str_rstrip s = s.
Proof.
  induction s as [|c s IH]; intros H; [reflexivity|].
  cbn [all_in_alphabet] in H. apply andb_prop in H. destruct H as [Hc Hs].
  cbn [str_rstrip]. rewrite (IH Hs), (alphabet_not_blank c Hc).
  destruct s; reflexivity.
Qed.

(** Blanks around a text of the alphabet are stripped, and nothing of the
    text is. *)
Lemma strip_padding (pre frame post : string) :
  all_blank pre = true -> all_blank post = true ->
  all_in_alphabet frame = true ->
  strip (pre ++ frame ++ post) = frame.
Proof.
  intros Hpre Hpost Hframe. unfold strip.
  rewrite str_lstrip_blank by exact Hpre.
  destruct frame as [|c r].
  - cbn [append]. rewrite str_lstrip_all_blank by exact Hpost. reflexivity.
  - pose proof Hframe as H. cbn [all_in_alphabet] in H.
    apply andb_prop in H. destruct H as [Hc _].
    cbn [append str_lstrip]. rewrite (alphabet_not_blank c Hc).
    change (String c (r ++ post)) with (String c r ++ post)%string.
    rewrite str_rstrip_blank by exact Hpost.
    apply str_rstrip_alphabet, Hframe.
Qed.


(** X14.  [_uart_rx] strips the buffer before it interprets it: blanks
    and a line terminator around a text of the alphabet (codes 35 to 125,
    none of them a blank) are dropped and nothing of the text is, so the
    call returns or raises what [process_status_data] does on the bare
    text, and leaves the same object. *)
Theorem uart_rx_strips_padding (pre frame post : string) (self : Battery) :
  all_blank pre = true -> all_blank post = true ->
  all_in_alphabet frame = true ->
  _uart_rx (Some (pre ++ frame ++ post)%string) self = process_status_data frame self.
Proof.
  intros Hpre Hpost Hframe.
  rewrite uart_rx_process, strip_padding by assumption. reflexivity.
Qed.

Lemma uart_rx_strips_padding_witness :
  let buf := (" " ++ frame_minus ++ String CR (String LF EmptyString))%string in
  len buf = 62
  /\ _uart_rx (Some buf) Battery_init = process_status_data frame_minus Battery_init
  /\ fst (_uart_rx (Some buf) Battery_init) = Ok true.
Proof.
  intros buf.
  pose proof (uart_rx_strips_padding " " frame_minus
                (String CR (String LF EmptyString)) Battery_init
                eq_refl eq_refl eq_refl) as H.
  split; [reflexivity|]. split; [exact H|].
  unfold buf. rewrite H. vm_compute. reflexivity.
Defined.

(** X15.  Without a buffer, or with a buffer of blanks only, [_uart_rx]
    returns [False] and leaves the object as it was. *)
Theorem uart_rx_without_frame (buf : option string) (self : Battery) :
  buf = None \/ (exists b, buf = Some b /\ all_blank b = true) ->
  _uart_rx buf self = (Ok false, self).
Proof.
  intros H. rewrite uart_rx_process.
  assert (E : match buf with
              | Some b => strip b
              | None => EmptyString
              end = EmptyString).
  { destruct H as [->|(b & -> & Hb)]; [reflexivity|].
    unfold strip. rewrite str_lstrip_all_blank by exact Hb. reflexivity. }
  rewrite E. apply wrong_length. discriminate.
Qed.

Lemma uart_rx_without_frame_witness :
  _uart_rx None Battery_init = (Ok false, Battery_init)
  /\ _uart_rx (Some (String CR (String LF EmptyString)))
       (after frame_minus Battery_init)
     = (Ok false, after frame_minus Battery_init).
Proof.
  split.
  - apply (uart_rx_without_frame None). left. reflexivity.
  - apply (uart_rx_without_frame (Some (String CR (String LF EmptyString)))).
    right. eexists. split; reflexivity.
Defined.



(** ** The hardware version, and a frame received twice *)

Lemma cell_count_learned (vs : list Q) (self : Battery) :
  exists n, cell_count (learned vs self) = Some n.
Proof.
  unfold learned. destruct (truthy (cell_count self)) eqn:E.
  - destruct (cell_count self) as [n|]; [eauto | discriminate E].
  - eexists. reflexivity.
Qed.

(** X17.  In a session, a call that returns [True] leaves a cell count
    [n] between 0 and 8 and the hardware version ["SBMS0 n cells"], with
    [n] in decimal. *)
Theorem hardware_version_names_cell_count (lines : list string) (line : string) :
  let s := after_frames lines Battery_init in
  outcome line s = Ok true ->
  exists n,
    cell_count (after line s) = Some n
    /\ 0 <= n <= 8
    /\ hardware_version (after line s)
       = Some ("SBMS0 " ++ str n ++ " cells")%string.
Proof.
  intros s Hret.
  assert (Hwf : cells_well_formed s)
    by (apply cells_well_formed_after_frames, cells_well_formed_init).
  pose proof (cells_well_formed_ready s Hwf) as Hready.
  assert (Hlen : len line = LENGTH_FIXED).
  { destruct (Z.eq_dec (len line) LENGTH_FIXED) as [E|E]; [exact E|].
    unfold outcome in Hret. rewrite wrong_length in Hret by exact E.
    discriminate Hret. }
  destruct (returned_reading line s Hlen Hready Hret) as (amps & _ & R).
  pose proof (cells_well_formed_after line s Hwf) as [_ Hcount].
  rewrite (rd_hardware_version _ _ _ _ R).
  rewrite (rd_cell_count _ _ _ _ R) in *.
  change (cell_count (before_current line s))
    with (cell_count (learned (decoded_voltages line) s)) in *.
  destruct (cell_count_learned (decoded_voltages line) s) as [n Hn].
  rewrite Hn in *. exists n.
  split; [reflexivity|]. split; [apply Hcount | reflexivity].
Qed.

Lemma hardware_version_names_cell_count_witness :
  let s := after_frames [frame_three_cells] Battery_init in
  cell_count (after frame_eight_cells s) = Some 3
  /\ hardware_version (after frame_eight_cells s) = Some "SBMS0 3 cells"%string.
Proof.
  intros s.
  destruct (hardware_version_names_cell_count [frame_three_cells] frame_eight_cells
              ltac:(vm_compute; reflexivity)) as (n & Hn & _ & Hv).
  fold s in Hn, Hv.
  assert (E : cell_count (after frame_eight_cells s) = Some 3)
    by (vm_compute; reflexivity).
  split; [exact E|].
  rewrite Hv. rewrite E in Hn. injection Hn as <-. reflexivity.
Defined.

Lemma stored_idempotent (cs : list Cell.t) :
  forall vs, stored (stored cs vs) vs = stored cs vs.
Proof.
  induction cs as [|c cs IH]; intros [|v vs]; cbn [stored]; try reflexivity.
  rewrite IH. destruct (Qltb 0 v) eqn:E; rewrite ?E; reflexivity.
Qed.

(** Lines 118-133 on the object that they have left: nothing changes. *)
Lemma before_current_idempotent (line : string) (self : Battery) :
  before_current line (before_current line self) = before_current line self.
Proof.
  destruct self as [cs cnt so vo cu t1 t2 cf df pr hw].
  unfold before_current, learned.
  cbn [cells cell_count set_cells set_cell_count set_soc set_voltage].
  destruct (truthy cnt) eqn:E;
    cbn [cells cell_count set_cells set_cell_count set_soc set_voltage].
  - rewrite E.
    cbn [cells cell_count set_cells set_cell_count set_soc set_voltage].
    rewrite stored_idempotent. reflexivity.
  - destruct (truthy (Some _));
      cbn [cells cell_count set_cells set_cell_count set_soc set_voltage].
    + rewrite stored_idempotent. reflexivity.
    + reflexivity.
Qed.

(** The cell slots and the cell count that lines 118-133 leave depend on
    the slots and the count they find. *)
Lemma before_current_cells (line : string) (x y : Battery) :
  cells x = cells y -> cell_count x = cell_count y ->
  cells (before_current line x) = cells (before_current line y)
  /\ cell_count (before_current line x) = cell_count (before_current line y).
Proof.
  intros Hc Hn. unfold before_current, learned. rewrite Hn.
  destruct (truthy (cell_count y));
    cbn [cells cell_count set_cells set_cell_count set_soc set_voltage];
    rewrite ?Hc, ?Hn; split; reflexivity.
Qed.

Lemma cell_voltage_delta_cells (x y : Battery) :
  cells x = cells y ->
  get_max_cell_voltage x = get_max_cell_voltage y
  /\ get_min_cell_voltage x = get_min_cell_voltage y.
Proof.
  intros H. unfold get_max_cell_voltage, get_min_cell_voltage. rewrite H.
  split; reflexivity.
Qed.

(** X18.  A frame received twice in a row: the second call returns or
    raises what the first did, and leaves every attribute, the cell
    slots and every protection level as the first call left them. *)
Theorem same_frame_twice (line : string) (self : Battery) :
  cells_ready self ->
  let once := after line self in
  let twice := after line once in
  outcome line once = outcome line self /\ same_object twice once.
Proof.
  intros Hready once twice.
  pose proof (cells_ready_after line self Hready) as Hready1. fold once in Hready1.
  unfold same_object, twice, once, outcome, after.
  destruct (Z.eq_dec (len line) LENGTH_FIXED) as [Hlen|Hlen].
  2: { rewrite !wrong_length by exact Hlen. cbn [fst snd].
       rewrite ?wrong_length by exact Hlen. repeat split. }
  pose proof (process_frame line self Hlen Hready) as P1.
  pose proof (process_frame line once Hlen Hready1) as P2.
  unfold once, after in P2.
  destruct (float (current_text line)) as [amps|e].
  - destruct P1 as (s1 & E1 & R1). rewrite E1 in *. cbn [fst snd] in *.
    destruct P2 as (s2 & E2 & R2). rewrite E2. cbn [fst snd].
    destruct (before_current_cells line s1 (before_current line self)
                (rd_cells _ _ _ _ R1) (rd_cell_count _ _ _ _ R1)) as [Hc Hn].
    rewrite before_current_idempotent in Hc, Hn.
    destruct (cell_voltage_delta_cells _ _ Hc) as [Hmax Hmin].
    pose proof (get_max_temp_reading _ _ _ _ R1) as M1.
    pose proof (get_max_temp_reading _ _ _ _ R2) as M2.
    pose proof (get_min_temp_reading _ _ _ _ R1) as N1.
    pose proof (get_min_temp_reading _ _ _ _ R2) as N2.
    split; [reflexivity|].
    split; [rewrite (rd_cells _ _ _ _ R2), (rd_cells _ _ _ _ R1); exact Hc|].
    split; [rewrite (rd_cell_count _ _ _ _ R2), (rd_cell_count _ _ _ _ R1); exact Hn|].
    split; [rewrite (rd_soc _ _ _ _ R2), (rd_soc _ _ _ _ R1); reflexivity|].
    split; [rewrite (rd_voltage _ _ _ _ R2), (rd_voltage _ _ _ _ R1); reflexivity|].
    split; [rewrite (rd_current _ _ _ _ R2), (rd_current _ _ _ _ R1); reflexivity|].
    split; [rewrite (rd_temp1 _ _ _ _ R2), (rd_temp1 _ _ _ _ R1); reflexivity|].
    split; [rewrite (rd_temp2 _ _ _ _ R2), (rd_temp2 _ _ _ _ R1); reflexivity|].
    split; [rewrite (rd_charge_fet _ _ _ _ R2), (rd_charge_fet _ _ _ _ R1);
            reflexivity|].
    split; [rewrite (rd_discharge_fet _ _ _ _ R2), (rd_discharge_fet _ _ _ _ R1);
            reflexivity|].
    split.
    + intros f. destruct f.
      * rewrite (rd_voltage_high _ _ _ _ R2), (rd_voltage_high _ _ _ _ R1).
        reflexivity.
      * rewrite (rd_voltage_low _ _ _ _ R2), (rd_voltage_low _ _ _ _ R1).
        reflexivity.
      * rewrite (rd_voltage_cell_low _ _ _ _ R2), (rd_voltage_cell_low _ _ _ _ R1).
        reflexivity.
      * rewrite (rd_soc_low _ _ _ _ R2), (rd_soc_low _ _ _ _ R1). reflexivity.
      * rewrite (rd_current_over _ _ _ _ R2), (rd_current_over _ _ _ _ R1).
        reflexivity.
      * rewrite (rd_current_under _ _ _ _ R2), (rd_current_under _ _ _ _ R1).
        reflexivity.
      * rewrite (rd_cell_imbalance _ _ _ _ R2), (rd_cell_imbalance _ _ _ _ R1),
          Hmax, Hmin. reflexivity.
      * rewrite (rd_internal_failure _ _ _ _ R2), (rd_internal_failure _ _ _ _ R1).
        reflexivity.
      * rewrite (rd_temp_high_charge _ _ _ _ R2), (rd_temp_high_charge _ _ _ _ R1),
          M1, M2. reflexivity.
      * rewrite (rd_temp_low_charge _ _ _ _ R2), (rd_temp_low_charge _ _ _ _ R1),
          N1, N2. reflexivity.
      * rewrite (rd_temp_high_discharge _ _ _ _ R2),
          (rd_temp_high_discharge _ _ _ _ R1), M1, M2. reflexivity.
      * rewrite (rd_temp_low_discharge _ _ _ _ R2),
          (rd_temp_low_discharge _ _ _ _ R1), N1, N2. reflexivity.
    + rewrite (rd_hardware_version _ _ _ _ R2), (rd_hardware_version _ _ _ _ R1), Hn.
      reflexivity.
  - rewrite P1 in *. cbn [fst snd] in *. rewrite P2. cbn [fst snd].
    rewrite before_current_idempotent. repeat split.
Qed.

Lemma same_frame_twice_witness :
  let once := after frame_noise_in_slot_2 (after frame_three_cells Battery_init) in
  let twice := after frame_noise_in_slot_2 once in
  cell_count twice = Some 3
  /\ length (recorded_voltages (cells twice)) = 4%nat
  /\ cells twice = cells once
  /\ hardware_version twice = hardware_version once.
Proof.
  intros once twice.
  assert (Hready : cells_ready (after frame_three_cells Battery_init))
    by (intros _; vm_compute; reflexivity).
  destruct (same_frame_twice frame_noise_in_slot_2
              (after frame_three_cells Battery_init) Hready)
    as (_ & Hc & Hn & _ & _ & _ & _ & _ & _ & _ & _ & Hv).
  fold once in Hc, Hn, Hv. fold twice in Hc, Hn, Hv.
  split; [rewrite Hn; vm_compute; reflexivity|].
  split; [rewrite Hc; vm_compute; reflexivity|].
  split; [exact Hc | exact Hv].
Defined.

(** ** The status bits that no line reads *)

Lemma code_at_same (l1 l2 : string) (k : Z) :
  same_before_flags l1 l2 -> 0 <= k < 56 -> code_at l1 k = code_at l2 k.
Proof.
  intros H Hk. unfold code_at. rewrite (H (Z.to_nat k)) by lia. reflexivity.
Qed.

Lemma field_value_same (l1 l2 : string) (pos size : Z) :
  same_before_flags l1 l2 -> 0 <= pos -> pos + size <= 56 ->
  field_value l1 pos size = field_value l2 pos size.
Proof.
  intros H Hpos Hend. unfold field_value, digit. apply sigma_ext.
  intros i Hi. rewrite (code_at_same l1 l2) by (assumption || lia). reflexivity.
Qed.

Lemma decoded_voltages_same (l1 l2 : string) :
  same_before_flags l1 l2 -> decoded_voltages l1 = decoded_voltages l2.
Proof.
  intros H. unfold decoded_voltages. apply map_ext_in.
  intros k Hk. apply in_range in Hk. unfold SBMS_CELL_COUNT_MAX in Hk.
  unfold decoded_voltage. rewrite (field_value_same l1 l2) by (assumption || lia).
  reflexivity.
Qed.

Lemma current_text_same (l1 l2 : string) :
  same_before_flags l1 l2 -> current_text l1 = current_text l2.
Proof.
  intros H. unfold current_text, char_at.
  rewrite (H 28%nat) by lia.
  rewrite (field_value_same l1 l2) by (assumption || lia). reflexivity.
Qed.

Lemma before_current_same (l1 l2 : string) (self : Battery) :
  same_before_flags l1 l2 -> before_current l1 self = before_current l2 self.
Proof.
  intros H. unfold before_current.
  rewrite (decoded_voltages_same l1 l2 H).
  rewrite (field_value_same l1 l2 6 2) by (assumption || lia). reflexivity.
Qed.

Lemma flag_same (f1 f2 i : Z) :
  (forall j, In j bits_read -> Z.testbit f1 j = Z.testbit f2 j) ->
  In i bits_read -> flag f1 i = flag f2 i.
Proof.
  intros H Hi.
  assert (0 <= i) by (unfold bits_read in Hi; cbn [In] in Hi; lia).
  rewrite !flag_testbit by assumption. apply H, Hi.
Qed.

(** X19.  Five of the fifteen status flags have no effect: OV (bit 0),
    UV (bit 2), DSC (bit 7), CELF (bit 8) and EOC (bit 13).  Two frames of
    59 characters with the same 56 characters before the flags, and whose
    flags agree on the other ten bits, make the call return or raise the
    same and leave the same object. *)
Theorem unread_status_bits (l1 l2 : string) (self : Battery) :
  len l1 = LENGTH_FIXED -> len l2 = LENGTH_FIXED -> cells_ready self ->
  same_before_flags l1 l2 ->
  (forall i, In i bits_read ->
             Z.testbit (field_value l1 56 3) i = Z.testbit (field_value l2 56 3) i) ->
  outcome l1 self = outcome l2 self
  /\ same_object (after l1 self) (after l2 self).
Proof.
  intros Hlen1 Hlen2 Hready Hsame Hbits.
  pose proof (process_frame l1 self Hlen1 Hready) as P1.
  pose proof (process_frame l2 self Hlen2 Hready) as P2.
  rewrite (current_text_same l1 l2 Hsame), (before_current_same l1 l2 self Hsame) in P1.
  unfold same_object, outcome, after.
  destruct (float (current_text l2)) as [amps|e].
  2: { rewrite P1, P2. repeat split. }
  destruct P1 as (s1 & -> & R1). destruct P2 as (s2 & -> & R2). cbn [fst snd].
  pose proof (get_max_temp_reading _ _ _ _ R1) as M1.
  pose proof (get_max_temp_reading _ _ _ _ R2) as M2.
  pose proof (get_min_temp_reading _ _ _ _ R1) as N1.
  pose proof (get_min_temp_reading _ _ _ _ R2) as N2.
  assert (T1 : field_value l1 24 2 = field_value l2 24 2)
    by (apply field_value_same; (assumption || lia)).
  assert (T2 : field_value l1 26 2 = field_value l2 26 2)
    by (apply field_value_same; (assumption || lia)).
  assert (S : field_value l1 6 2 = field_value l2 6 2)
    by (apply field_value_same; (assumption || lia)).
  assert (F : forall i, In i bits_read ->
                flag (field_value l1 56 3) i = flag (field_value l2 56 3) i)
    by (intros i Hi; apply flag_same; assumption).
  rewrite T1, T2 in M1, N1.
  split; [reflexivity|].
  split; [rewrite (rd_cells _ _ _ _ R1), (rd_cells _ _ _ _ R2); reflexivity|].
  split; [rewrite (rd_cell_count _ _ _ _ R1), (rd_cell_count _ _ _ _ R2);
          reflexivity|].
  split; [rewrite (rd_soc _ _ _ _ R1), (rd_soc _ _ _ _ R2); reflexivity|].
  split; [rewrite (rd_voltage _ _ _ _ R1), (rd_voltage _ _ _ _ R2); reflexivity|].
  split; [rewrite (rd_current _ _ _ _ R1), (rd_current _ _ _ _ R2); reflexivity|].
  split; [rewrite (rd_temp1 _ _ _ _ R1), (rd_temp1 _ _ _ _ R2), T1; reflexivity|].
  split; [rewrite (rd_temp2 _ _ _ _ R1), (rd_temp2 _ _ _ _ R2), T2; reflexivity|].
  split; [rewrite (rd_charge_fet _ _ _ _ R1), (rd_charge_fet _ _ _ _ R2),
            (F 12) by (cbn; tauto); reflexivity|].
  split; [rewrite (rd_discharge_fet _ _ _ _ R1), (rd_discharge_fet _ _ _ _ R2),
            (F 14) by (cbn; tauto); reflexivity|].
  split.
  - intros f. destruct f.
    + rewrite (rd_voltage_high _ _ _ _ R1), (rd_voltage_high _ _ _ _ R2),
        (F 1) by (cbn; tauto). reflexivity.
    + rewrite (rd_voltage_low _ _ _ _ R1), (rd_voltage_low _ _ _ _ R2),
        (F 3) by (cbn; tauto). reflexivity.
    + rewrite (rd_voltage_cell_low _ _ _ _ R1), (rd_voltage_cell_low _ _ _ _ R2),
        (F 10) by (cbn; tauto). reflexivity.
    + rewrite (rd_soc_low _ _ _ _ R1), (rd_soc_low _ _ _ _ R2), S. reflexivity.
    + rewrite (rd_current_over _ _ _ _ R1), (rd_current_over _ _ _ _ R2),
        (F 5) by (cbn; tauto). reflexivity.
    + rewrite (rd_current_under _ _ _ _ R1), (rd_current_under _ _ _ _ R2),
        (F 6) by (cbn; tauto). reflexivity.
    + rewrite (rd_cell_imbalance _ _ _ _ R1), (rd_cell_imbalance _ _ _ _ R2).
      reflexivity.
    + rewrite (rd_internal_failure _ _ _ _ R1), (rd_internal_failure _ _ _ _ R2),
        (F 11), (F 9) by (cbn; tauto). reflexivity.
    + rewrite (rd_temp_high_charge _ _ _ _ R1), (rd_temp_high_charge _ _ _ _ R2),
        M1, M2, (F 4) by (cbn; tauto). reflexivity.
    + rewrite (rd_temp_low_charge _ _ _ _ R1), (rd_temp_low_charge _ _ _ _ R2),
        N1, N2. reflexivity.
    + rewrite (rd_temp_high_discharge _ _ _ _ R1),
        (rd_temp_high_discharge _ _ _ _ R2), M1, M2, (F 4) by (cbn; tauto).
      reflexivity.
    + rewrite (rd_temp_low_discharge _ _ _ _ R1),
        (rd_temp_low_discharge _ _ _ _ R2), N1, N2. reflexivity.
  - rewrite (rd_hardware_version _ _ _ _ R1), (rd_hardware_version _ _ _ _ R2).
    reflexivity.
Qed.

Lemma unread_status_bits_witness :
  field_value frame_eight_cells 56 3 = 2 ^ 12 + 2 ^ 14
  /\ field_value frame_unread_flags 56 3
     = 2 ^ 12 + 2 ^ 14 + (2 ^ 0 + 2 ^ 2 + 2 ^ 7 + 2 ^ 8 + 2 ^ 13)
  /\ outcome frame_eight_cells Battery_init = outcome frame_unread_flags Battery_init
  /\ same_object (after frame_eight_cells Battery_init)
                 (after frame_unread_flags Battery_init).
Proof.
  split; [vm_compute; reflexivity|]. split; [vm_compute; reflexivity|].
  apply (unread_status_bits frame_eight_cells frame_unread_flags Battery_init
           eq_refl eq_refl cells_ready_init).
  - intros k Hk. do 56 (destruct k as [|k]; [reflexivity|]). lia.
  - intros i Hi. unfold bits_read in Hi. cbn [In] in Hi.
    repeat (destruct Hi as [<-|Hi]; [vm_compute; reflexivity|]). destruct Hi.
Defined.
